(** * Realtime interaction driver for tactile drawings

    A shallow embedding of the TypeScript sources
    - [src/utils/utils.ts] (image helpers), and
    - the [RealtimeInteraction] class (session driver, pointed-position
      synchronisation, audio toggle),
    - the pixel loop of [base64ToGrayScale], [getEphemeralKey] and
      [enforceInputMinMax] of [PositionView.ts],
    followed by the properties established about them.

    Conventions of the embedding.
    - [this] is an explicit record [RealtimeInteraction] threaded through a
      small state-and-exception monad [M].
    - A JavaScript exception or a rejected promise is [Throw]; [await] of a
      browser primitive reads the answer of the environment from a [World].
    - Everything written to the data channel, every release of a transport
      resource and every start of the latency timer is appended, in program
      order, to the field [effects]; console output is not modelled.
    - An event handler runs to completion before the next one starts (the
      single-flight design of the driver), so an [await] is a sequence point.
    - In the driver pointer coordinates are whole pixels, hence [Z]; an
      empty input ([valueAsNumber] is NaN) is read by the code as [null],
      hence [option Z].  Module [Binary64] has the change detector on the
      binary64 numbers of the code; the two detectors agree on the pixels
      of a drawing.
    - The compression quality is a binary64 number, hence [float].
    - Texts of template literals are given without their indentation; CSS
      classes of the widgets are left out. *)

From Stdlib Require Import ZArith QArith List String Bool Lia PrimFloat.
From Stdlib Require Import FloatOps SpecFloat Qabs.
Import ListNotations.

Set Warnings "-inexact-float".
Set Implicit Arguments.

Local Open Scope string_scope.
Local Open Scope Z_scope.

(** ** Results of computations *)

(** What running a piece of code yields: a value, an exception, or the
    exhaustion of the iteration budget given to the one [while] loop. *)
Inductive outcome (A : Type) : Type :=
| Ret (a : A)
| Throw (e : string)
| OutOfFuel.

Arguments Ret {A} a.
Arguments Throw {A} e.
Arguments OutOfFuel {A}.

(** A settled promise of a browser primitive. *)
Variant promise (A : Type) : Type :=
| Resolved (a : A)
| Rejected (e : string).

Arguments Resolved {A} a.
Arguments Rejected {A} e.

Definition await {A} (p : promise A) : outcome A :=
  match p with
  | Resolved a => Ret a
  | Rejected e => Throw e
  end.

(** Sequencing of computations that do not touch [this]. *)
Definition obind {A B} (o : outcome A) (k : A -> outcome B) : outcome B :=
  match o with
  | Ret a => k a
  | Throw e => Throw e
  | OutOfFuel => OutOfFuel
  end.

(** JavaScript truthiness of a [string | null]. *)
Definition truthy (s : option string) : bool :=
  match s with
  | None => false
  | Some s' => negb (String.eqb s' "")
  end.

(** ** utils.ts *)

Module Utils.

(** A [Blob], reduced to what the driver observes: its byte size, its MIME
    type and an identifier of its content. *)
Record Blob : Type := mkBlob {
  blob_size : Z;
  blob_type : string;
  blob_data : string
}.

(** [blob.size / 1024]; the division by a power of two is exact. *)
Definition blobSizeInKB (blob : Blob) : Q := blob_size blob # 1024.

Definition checkBlobSize (blob : Blob) (max_size : Z) : bool :=
  Qle_bool (blobSizeInKB blob) (inject_Z max_size).

(** The lookup in the table of language names, for the strings that are
    language codes; names every object inherits ([constructor],
    [toString], ...) are outside the model. *)
Definition mapLangCodeToName (langCode : string) : string :=
  if String.eqb langCode "en-US" then "English (US)"
  else if String.eqb langCode "en-GB" then "English (UK)"
  else if String.eqb langCode "en-AU" then "English (Australia)"
  else if String.eqb langCode "it-IT" then "Italian"
  else if String.eqb langCode "fr-FR" then "French"
  else if String.eqb langCode "es-ES" then "Spanish"
  else "English (US)".

(** The browser primitives used by the image helpers. *)
Record Canvas : Type := mkCanvas {
  imageToBase64 : Blob -> promise string;
  base64ToBlob : string -> promise Blob;
  reduceResolution : Blob -> promise Blob;
  toWebp : Blob -> promise Blob;
  compressWebpBlob : Blob -> float -> promise Blob;
  getImgDimensions : string -> promise (Z * Z);
  base64ToGrayScale : string -> promise string;
  (** load the image, copy it on a canvas, fill the red disc of the given
      radius at [(x, y)], export as data URL *)
  fillMarker : string -> Z -> Z -> Z -> promise string
}.

Definition drawPointedPosition (cv : Canvas) (base64Img : string)
    (x y : option Z) (radius : Z) : outcome string :=
  match x, y with
  | Some x', Some y' => await (fillMarker cv base64Img x' y' radius)
  | _, _ => Ret base64Img
  end.

Definition default_radius : Z := 9.

End Utils.

(** ** The RealtimeInteraction class *)

Module Driver.
Import Utils.

(** *** Messages *)

Variant Modality := text | audio.

Variant ContentPart :=
| input_text (txt : string)
| input_image (image_url : string).

(** The [response] field of a [response.create] event. *)
Record ResponseParams := mkResponseParams {
  output_modalities : option (list Modality);
  instructions : string
}.

(** The [session] field of a [session.update] event: the full
    configuration built by [createSessionConfig] (whose output modality is
    text), or the two-field object switching the output modality. *)
Variant SessionPayload :=
| createSessionConfig (defaultLang : string)
| realtime_modalities (ms : list Modality).

(** Events the client writes to the data channel.  A
    [conversation.item.create] always carries a user message. *)
Variant ClientEvent :=
| session_update (session : SessionPayload)
| conversation_item_create (content : list ContentPart)
| response_create (response : option ResponseParams).

(** Events read from the data channel, after [JSON.parse]. *)
Record ErrorObject := mkErrorObject {
  err_message : option string;
  err_code : option string
}.

Record RealtimeMessage := mkRealtimeMessage {
  msg_type : string;
  msg_error : option ErrorObject;
  msg_delta : option string;
  msg_name : option string;
  (** [msg.response?.status] *)
  msg_response_status : option string
}.

(** [e.data]: [None] when [JSON.parse] throws. *)
Definition MessageEvent := option RealtimeMessage.

(** *** Observable effects *)

Variant Resource := DataChannel | LocalStream | PeerConnection | AudioElement.

Variant Effect :=
| Send (ev : ClientEvent)
| Release (r : Resource)
| TimerStart (now : Z).

(** *** State *)

Record UIElements := mkUI {
  startBtn_disabled : bool;
  stopBtn_disabled : bool;
  sessionState : string;
  audioState : string;
  modelResponse : string;
  (** [valueAsNumber] of the two inputs, [None] for NaN *)
  xCoord : option Z;
  yCoord : option Z;
  hotspotSelect : string
}.

Record Coords := mkCoords { lastX : option Z; lastY : option Z }.

Record RealtimeInteraction := mkRI {
  peerConnection : bool;
  audioElement : bool;
  localStream : bool;
  dataChannel : bool;
  ephemeralKey : option string;
  elements : option UIElements;
  audioResponsesOn : bool;
  requestStartTime : option Z;
  responseStarted : bool;
  grayScaleBase64Template : option string;
  lastCoords : Coords;
  imgDimensions : Z * Z;
  effects : list Effect
}.

(** The four transport fields hold a handle or [null]; only that
    distinction is observed, so they are booleans ([true]: acquired). *)

Definition placeholder : Z := 100000.

(** Field initialisers of the class. *)
Definition new_RealtimeInteraction : RealtimeInteraction :=
  {| peerConnection := false; audioElement := false; localStream := false;
     dataChannel := false; ephemeralKey := None; elements := None;
     audioResponsesOn := false; requestStartTime := None;
     responseStarted := false; grayScaleBase64Template := None;
     lastCoords := mkCoords (Some placeholder) (Some placeholder);
     imgDimensions := (-1, -1); effects := [] |}.

(** Field updates. *)
Definition set_peerConnection v s :=
  mkRI v (audioElement s) (localStream s) (dataChannel s) (ephemeralKey s)
    (elements s) (audioResponsesOn s) (requestStartTime s) (responseStarted s)
    (grayScaleBase64Template s) (lastCoords s) (imgDimensions s) (effects s).
Definition set_audioElement v s :=
  mkRI (peerConnection s) v (localStream s) (dataChannel s) (ephemeralKey s)
    (elements s) (audioResponsesOn s) (requestStartTime s) (responseStarted s)
    (grayScaleBase64Template s) (lastCoords s) (imgDimensions s) (effects s).
Definition set_localStream v s :=
  mkRI (peerConnection s) (audioElement s) v (dataChannel s) (ephemeralKey s)
    (elements s) (audioResponsesOn s) (requestStartTime s) (responseStarted s)
    (grayScaleBase64Template s) (lastCoords s) (imgDimensions s) (effects s).
Definition set_dataChannel v s :=
  mkRI (peerConnection s) (audioElement s) (localStream s) v (ephemeralKey s)
    (elements s) (audioResponsesOn s) (requestStartTime s) (responseStarted s)
    (grayScaleBase64Template s) (lastCoords s) (imgDimensions s) (effects s).
Definition set_ephemeralKey v s :=
  mkRI (peerConnection s) (audioElement s) (localStream s) (dataChannel s) v
    (elements s) (audioResponsesOn s) (requestStartTime s) (responseStarted s)
    (grayScaleBase64Template s) (lastCoords s) (imgDimensions s) (effects s).
Definition set_elements v s :=
  mkRI (peerConnection s) (audioElement s) (localStream s) (dataChannel s)
    (ephemeralKey s) v (audioResponsesOn s) (requestStartTime s)
    (responseStarted s) (grayScaleBase64Template s) (lastCoords s)
    (imgDimensions s) (effects s).
Definition set_audioResponsesOn v s :=
  mkRI (peerConnection s) (audioElement s) (localStream s) (dataChannel s)
    (ephemeralKey s) (elements s) v (requestStartTime s) (responseStarted s)
    (grayScaleBase64Template s) (lastCoords s) (imgDimensions s) (effects s).
Definition set_requestStartTime v s :=
  mkRI (peerConnection s) (audioElement s) (localStream s) (dataChannel s)
    (ephemeralKey s) (elements s) (audioResponsesOn s) v (responseStarted s)
    (grayScaleBase64Template s) (lastCoords s) (imgDimensions s) (effects s).
Definition set_responseStarted v s :=
  mkRI (peerConnection s) (audioElement s) (localStream s) (dataChannel s)
    (ephemeralKey s) (elements s) (audioResponsesOn s) (requestStartTime s) v
    (grayScaleBase64Template s) (lastCoords s) (imgDimensions s) (effects s).
Definition set_grayScaleBase64Template v s :=
  mkRI (peerConnection s) (audioElement s) (localStream s) (dataChannel s)
    (ephemeralKey s) (elements s) (audioResponsesOn s) (requestStartTime s)
    (responseStarted s) v (lastCoords s) (imgDimensions s) (effects s).
Definition set_lastCoords v s :=
  mkRI (peerConnection s) (audioElement s) (localStream s) (dataChannel s)
    (ephemeralKey s) (elements s) (audioResponsesOn s) (requestStartTime s)
    (responseStarted s) (grayScaleBase64Template s) v (imgDimensions s)
    (effects s).
Definition set_imgDimensions v s :=
  mkRI (peerConnection s) (audioElement s) (localStream s) (dataChannel s)
    (ephemeralKey s) (elements s) (audioResponsesOn s) (requestStartTime s)
    (responseStarted s) (grayScaleBase64Template s) (lastCoords s) v
    (effects s).
Definition emit (e : Effect) s :=
  mkRI (peerConnection s) (audioElement s) (localStream s) (dataChannel s)
    (ephemeralKey s) (elements s) (audioResponsesOn s) (requestStartTime s)
    (responseStarted s) (grayScaleBase64Template s) (lastCoords s)
    (imgDimensions s) (effects s ++ [e]).

(** *** The monad of methods *)

Definition M (A : Type) : Type :=
  RealtimeInteraction -> outcome A * RealtimeInteraction.

Definition ret {A} (a : A) : M A := fun s => (Ret a, s).
Definition throw {A} (e : string) : M A := fun s => (Throw e, s).

Definition bind {A B} (m : M A) (k : A -> M B) : M B :=
  fun s =>
    match m s with
    | (Ret a, s') => k a s'
    | (Throw e, s') => (Throw e, s')
    | (OutOfFuel, s') => (OutOfFuel, s')
    end.

(** [try { body } catch (err) { handler }] *)
Definition try_catch {A} (body : M A) (handler : string -> M A) : M A :=
  fun s =>
    match body s with
    | (Throw e, s') => handler e s'
    | r => r
    end.

Definition get : M RealtimeInteraction := fun s => (Ret s, s).
Definition modify (f : RealtimeInteraction -> RealtimeInteraction) : M unit :=
  fun s => (Ret tt, f s).
(** Result of a computation that leaves [this] alone. *)
Definition lift {A} (o : outcome A) : M A := fun s => (o, s).

Declare Scope m_scope.
Delimit Scope m_scope with M.
Notation "x <- m ;; k" := (bind m (fun x => k))
  (at level 61, m at next level, right associativity) : m_scope.
Notation "m ;; k" := (bind m (fun _ => k))
  (at level 61, right associativity) : m_scope.
Local Open Scope m_scope.

(** State reached by a method, whatever it returned. *)
Definition exec {A} (m : M A) (s : RealtimeInteraction) : RealtimeInteraction :=
  snd (m s).

(** [this.dataChannel.send(JSON.stringify ev)]; on a [null] channel the
    member access raises a TypeError. *)
Definition dataChannel_send (ev : ClientEvent) : M unit :=
  s <- get ;;
  if dataChannel s then modify (emit (Send ev))
  else throw "TypeError: Cannot read properties of null (reading 'send')".

(** *** The environment of a session *)

(** [data.json] after [response.json()]: its serialisation and the field
    [metadata.lang] ([metadata = None]: the document has no [metadata]). *)
Record FileData := mkFileData {
  stringify : string;
  metadata : option (option string)
}.

Record World := mkWorld {
  canvas : Canvas;
  (** [getEphemeralKey()], which resolves to [null] on any failure *)
  getEphemeralKey : option string;
  (** [new RTCPeerConnection()] gave an object *)
  new_RTCPeerConnection : bool;
  (** [navigator.mediaDevices.getUserMedia({ audio: true })] *)
  getUserMedia : promise unit;
  (** [createDataChannel("oai-events")] gave an object *)
  createDataChannel : bool;
  (** offer, POST of the SDP, answer *)
  negotiate : promise unit;
  getFileData : promise FileData;
  getFileTemplate : promise string;
  getFileColorMap : promise string
}.

Definition isNull {A} (o : option A) : bool :=
  match o with
  | None => true
  | Some _ => false
  end.

(** Numeric value of a [number | null] operand: [null] converts to 0. *)
Definition num (o : option Z) : Z :=
  match o with
  | Some v => v
  | None => 0
  end.

Definition default_threshold : Z := 5.

Definition checkPointedPositionVariation
    (currentX currentY lastX lastY : option Z) (threshold : Z) : bool :=
  let currNull := isNull currentX || isNull currentY in
  let lastNull := isNull lastX || isNull lastY in
  if currNull && lastNull then false
  else if negb currNull && lastNull then true
  else if currNull && negb lastNull then true
  else
    let diffX := Z.abs (num currentX - num lastX) in
    let diffY := Z.abs (num currentY - num lastY) in
    (threshold <=? diffX) || (threshold <=? diffY).

Section Methods.

Variable W : World.

(** **** UI handling *)

Definition handleSessionState (state : bool) : M unit :=
  s <- get ;;
  match elements s with
  | None => ret tt
  | Some ui =>
      if state then
        modify (set_elements (Some
          (mkUI true false "Session on" (audioState ui) (modelResponse ui)
             (xCoord ui) (yCoord ui) (hotspotSelect ui))))
      else
        modify (set_elements (Some
          (mkUI false true "Session off" (audioState ui)
             "The model response will appear here..."
             (xCoord ui) (yCoord ui) (hotspotSelect ui))))
  end.

Definition handleAudioState (state : bool) : M unit :=
  s <- get ;;
  match elements s with
  | None => ret tt
  | Some ui =>
      modify (set_audioResponsesOn state) ;;
      modify (set_elements (Some
        (mkUI (startBtn_disabled ui) (stopBtn_disabled ui) (sessionState ui)
           (if state then "Audio on" else "Audio off") (modelResponse ui)
           (xCoord ui) (yCoord ui) (hotspotSelect ui))))
  end.

Definition set_modelResponse (f : string -> string) : M unit :=
  s <- get ;;
  match elements s with
  | None => ret tt
  | Some ui =>
      modify (set_elements (Some
        (mkUI (startBtn_disabled ui) (stopBtn_disabled ui) (sessionState ui)
           (audioState ui) (f (modelResponse ui))
           (xCoord ui) (yCoord ui) (hotspotSelect ui))))
  end.

(** [init()], given the widgets found in the document. *)
Definition init (dom : UIElements) : M unit :=
  modify (set_elements (Some dom)) ;;
  handleSessionState false ;;
  handleAudioState false.

(** **** Session handling *)

Definition release (r : Resource) (held : RealtimeInteraction -> bool)
    (clear : RealtimeInteraction -> RealtimeInteraction) : M unit :=
  s <- get ;;
  if held s then modify (emit (Release r)) ;; modify clear else ret tt.

Definition stopSession : M unit :=
  release DataChannel dataChannel (set_dataChannel false) ;;
  release LocalStream localStream (set_localStream false) ;;
  release PeerConnection peerConnection (set_peerConnection false) ;;
  release AudioElement audioElement (set_audioElement false) ;;
  handleSessionState false ;;
  handleAudioState false.

Definition resetLastCoords : M unit :=
  modify (set_lastCoords (mkCoords (Some placeholder) (Some placeholder))).

(** **** Connection setup *)

(** [new_RTCPeerConnection W = false] stands for the failure the null test
    of the code provides for. *)
Definition setupPeerConnection : M bool :=
  modify (set_peerConnection (new_RTCPeerConnection W)) ;;
  s <- get ;;
  if negb (peerConnection s) then stopSession ;; ret false
  else ret true.

Definition setupRemoteAudio : M bool :=
  s <- get ;;
  if negb (peerConnection s) then stopSession ;; ret false
  else modify (set_audioElement true) ;; ret true.

Definition setupLocalAudio : M bool :=
  s <- get ;;
  if negb (peerConnection s) then stopSession ;; ret false
  else
    try_catch
      (lift (await (getUserMedia W)) ;;
       modify (set_localStream true) ;;
       ret true)
      (fun _ => stopSession ;; ret false).

Definition setupDataChannel : M bool :=
  s <- get ;;
  if negb (peerConnection s) then stopSession ;; ret false
  else
    modify (set_dataChannel (createDataChannel W)) ;;
    s' <- get ;;
    if negb (dataChannel s') then stopSession ;; ret false
    else ret true.

Definition connectToModel : M unit :=
  try_catch
    (s <- get ;;
     if negb (peerConnection s) then stopSession
     else lift (await (negotiate W)))
    (fun _ => stopSession).

Definition startSession : M unit :=
  modify (set_ephemeralKey (getEphemeralKey W)) ;;
  s <- get ;;
  if negb (truthy (ephemeralKey s)) then ret tt
  else
    ok1 <- setupPeerConnection ;;
    if negb ok1 then ret tt else
    ok2 <- setupRemoteAudio ;;
    if negb ok2 then ret tt else
    ok3 <- setupLocalAudio ;;
    if negb ok3 then ret tt else
    ok4 <- setupDataChannel ;;
    if negb ok4 then ret tt else
    connectToModel ;;
    resetLastCoords.

(** **** Initial prompt *)

(** Value of a [string | null] known to be truthy. *)
Definition str (o : option string) : string :=
  match o with
  | Some v => v
  | None => ""
  end.

(** An [async] method called without [await]: a rejection stays with the
    promise nobody reads, the caller goes on.  By the convention of this
    file the method runs to its end at the call; in the browser it runs up
    to its first [await] and the rest follows the caller. *)
Definition detached (m : M unit) : M unit :=
  try_catch m (fun _ => ret tt).

Definition initSession : M unit :=
  s <- get ;;
  if negb (dataChannel s) then stopSession
  else
    lang <- try_catch
              (data <- lift (await (getFileData W)) ;;
               match metadata data with
               | None =>
                   throw "TypeError: Cannot read properties of undefined (reading 'lang')"
               | Some l =>
                   let langCode := if truthy l then str l else "en-US" in
                   ret (mapLangCodeToName langCode)
               end)
              (fun _ => ret "English (US)") ;;
    dataChannel_send (session_update (createSessionConfig lang)).

(** **** Content of the drawing file *)

Definition sendData (data : string) : M unit :=
  s <- get ;;
  if negb (dataChannel s) then stopSession
  else
    dataChannel_send
      (conversation_item_create
         [input_text "Tactile drawing data:"; input_text data]).

Definition maxImageSize : Z := 220.

(** The [while (quality >= 0.0)] loop of [getSendableImage]; [fuel]
    bounds the number of times its condition is evaluated. *)
Fixpoint qualityLoop (fuel : nat) (webpBlob : Blob) (budget : Z)
    (quality : float) : outcome (option string) :=
  match fuel with
  | O => OutOfFuel
  | S fuel' =>
      if (0 <=? quality)%float then
        obind (await (compressWebpBlob (canvas W) webpBlob quality))
          (fun compressedBlob =>
             if checkBlobSize compressedBlob budget then
               obind (await (imageToBase64 (canvas W) compressedBlob))
                 (fun b64 => Ret (Some b64))
             else qualityLoop fuel' webpBlob budget (quality - 0.1)%float)
      else Ret None
  end.

(** [catch (err) { throw new Error('Image processing failed:' + ...) }] *)
Definition rethrow {A} (o : outcome A) : outcome A :=
  match o with
  | Throw e => Throw ("Image processing failed:" ++ e)
  | r => r
  end.

Definition getSendableImageWithin (budget : Z) (fuel : nat)
    (initialBase64Image : string) : outcome (option string) :=
  rethrow
    (obind (await (base64ToBlob (canvas W) initialBase64Image)) (fun blob =>
     obind (await (reduceResolution (canvas W) blob)) (fun reducedDimBlob =>
     obind (await (toWebp (canvas W) reducedDimBlob)) (fun webpBlob =>
     if checkBlobSize webpBlob budget then
       obind (await (imageToBase64 (canvas W) webpBlob))
         (fun b64 => Ret (Some b64))
     else qualityLoop fuel webpBlob budget 0.9%float)))).

Definition getSendableImage : nat -> string -> outcome (option string) :=
  getSendableImageWithin maxImageSize.

Definition sendImage (base64Image : string) (type : string) : M unit :=
  s <- get ;;
  if negb (dataChannel s) then stopSession
  else
    let textMsg :=
      if String.eqb type "template" then "Tactile drawing template image:"
      else if String.eqb type "colorMap" then "Tactile drawing color map image:"
      else "" in
    dataChannel_send
      (conversation_item_create
         [input_text textMsg; input_image base64Image]).

Definition sendFileContent (fuel : nat) : M unit :=
  s <- get ;;
  if negb (dataChannel s) then stopSession
  else
    try_catch
      (data <- lift (await (getFileData W)) ;;
       let dataOutput := stringify data in
       templateOutput <- lift (await (getFileTemplate W)) ;;
       colorMapOutput <- lift (await (getFileColorMap W)) ;;
       sendData dataOutput ;;
       finalTemplateOutput <- lift (getSendableImage fuel templateOutput) ;;
       finalColorMapOutput <- lift (getSendableImage fuel colorMapOutput) ;;
       if negb (truthy finalTemplateOutput) then
         throw "The template image is too large to be sent"
       else if negb (truthy finalColorMapOutput) then
         throw "The color map image is too large to be sent"
       else
         gray <- lift (await (base64ToGrayScale (canvas W)
                                (str finalTemplateOutput))) ;;
         modify (set_grayScaleBase64Template (Some gray)) ;;
         dims <- lift (await (getImgDimensions (canvas W)
                                (str finalTemplateOutput))) ;;
         modify (set_imgDimensions dims) ;;
         sendImage (str finalTemplateOutput) "template" ;;
         sendImage (str finalColorMapOutput) "colorMap")
      (fun _ => stopSession).

(** **** Function calls *)

Definition already_enabled_instructions : string :=
  "- Do not call any function.
- Only notify the user that audio is already enabled.
- Keep the response very short.".

Definition already_disabled_instructions : string :=
  "- Do not call any function.
- Only notify the user that audio is already disabled.
- Keep the response very short.".

Definition has_been_disabled_instructions : string :=
  "- Do not call any function.
- Only notify the user that audio has been disabled.
- Keep the response very short.".

Definition enableAudio : M unit :=
  s <- get ;;
  if negb (dataChannel s) then stopSession
  else if audioResponsesOn s then
    dataChannel_send
      (response_create
         (Some (mkResponseParams None already_enabled_instructions)))
  else
    dataChannel_send (session_update (realtime_modalities [audio])) ;;
    handleAudioState true ;;
    dataChannel_send (response_create None).

Definition feedbackAudioDisabled : M unit :=
  s <- get ;;
  if negb (dataChannel s) then stopSession
  else
    dataChannel_send
      (response_create
         (Some (mkResponseParams (Some [audio])
                  has_been_disabled_instructions))).

Definition disableAudio : M unit :=
  s <- get ;;
  if negb (dataChannel s) then stopSession
  else if negb (audioResponsesOn s) then
    dataChannel_send
      (response_create
         (Some (mkResponseParams None already_disabled_instructions)))
  else
    dataChannel_send (session_update (realtime_modalities [text])) ;;
    handleAudioState false ;;
    feedbackAudioDisabled.

Definition handleFunctionCalls (msg : RealtimeMessage) : M unit :=
  match msg_name msg with
  | Some name =>
      if String.eqb name "wake_word" then enableAudio
      else if String.eqb name "sleep_word" then detached disableAudio
      else ret tt
  | None => ret tt
  end.

(** **** Response time *)

Definition startResponseTimer (now : Z) : M unit :=
  modify (emit (TimerStart now)) ;;
  modify (set_requestStartTime (Some now)) ;;
  modify (set_responseStarted false).

Definition printResponseTime : M unit :=
  s <- get ;;
  if negb (responseStarted s) && negb (isNull (requestStartTime s))
  then modify (set_responseStarted true)
  else ret tt.

(** **** Pointed position *)

Definition getCurrentPointedPosition : M (option Z * option Z) :=
  s <- get ;;
  match elements s with
  | None => throw "UI elements not initialized"
  | Some ui => ret (xCoord ui, yCoord ui)
  end.

Definition getCurrentHotspot : M (option string) :=
  s <- get ;;
  match elements s with
  | None => throw "UI elements not initialized"
  | Some ui =>
      ret (if String.eqb (hotspotSelect ui) "null" then None
           else Some (hotspotSelect ui))
  end.

Definition getLastCoords : M (option Z * option Z) :=
  s <- get ;;
  ret (lastX (lastCoords s), lastY (lastCoords s)).

Definition not_pointing_text : string :=
  "The user is not pointing any position.".

Definition pointing_text : string :=
  "The user is pointing the position represented in this image:".

Definition hotspot_text (currentHotspot : option string) : string :=
  if negb (truthy currentHotspot) then ""
  else "It correspond to this hotspot: " ++ str currentHotspot.

Definition sendImgWithPositionAndHotspot
    (currentX currentY : option Z) (currentHotspot : option string) : M unit :=
  s <- get ;;
  if negb (truthy (grayScaleBase64Template s)) then
    throw "Gray scale image template missing"
  else if negb (dataChannel s) then
    throw "Data channel missing"
  else
    resContent <-
      (if isNull currentX || isNull currentY then
         ret [input_text not_pointing_text]
       else
         imgWithPosition <-
           lift (drawPointedPosition (canvas W)
                   (str (grayScaleBase64Template s))
                   currentX currentY default_radius) ;;
         ret [input_text pointing_text;
              input_image imgWithPosition;
              input_text (hotspot_text currentHotspot)]) ;;
    dataChannel_send (conversation_item_create resContent).

Definition sendPointedPositionIfNecessary : M unit :=
  try_catch
    (cur <- getCurrentPointedPosition ;;
     let (currentX, currentY) := cur in
     currentHotspot <- getCurrentHotspot ;;
     last <- getLastCoords ;;
     let (lastX, lastY) := last in
     let positionChanged :=
       checkPointedPositionVariation currentX currentY lastX lastY
         default_threshold in
     if positionChanged then
       modify (set_lastCoords (mkCoords currentX currentY)) ;;
       sendImgWithPositionAndHotspot currentX currentY currentHotspot
     else ret tt)
    (fun _ => stopSession).

(** **** Dispatch of inbound events *)

Definition benign_code : string :=
  "conversation_already_has_active_response".

(** [a != b] for a [string | undefined] against a string literal. *)
Definition differs (a : option string) (b : string) : bool :=
  match a with
  | Some a' => negb (String.eqb a' b)
  | None => true
  end.

Definition append_delta (msg : RealtimeMessage) : M unit :=
  printResponseTime ;;
  if truthy (msg_delta msg)
  then set_modelResponse (fun t => t ++ str (msg_delta msg))
  else ret tt.

Definition handleDataChannelMessages (fuel : nat) (now : Z)
    (e : MessageEvent) : M unit :=
  try_catch
    (match e with
     | None => throw "SyntaxError"
     | Some msg =>
         let type := msg_type msg in
         if String.eqb type "session.created" then
           handleSessionState true ;;
           detached initSession ;;
           detached (sendFileContent fuel)
         else if String.eqb type "invalid_request_error" then
           stopSession
         else if String.eqb type "error" then
           match msg_error msg with
           | None =>
               throw "TypeError: Cannot read properties of undefined (reading 'code')"
           | Some err =>
               if differs (err_code err) benign_code then stopSession
               else ret tt
           end
         else if String.eqb type "input_audio_buffer.committed" then
           sendPointedPositionIfNecessary ;;
           dataChannel_send (response_create None) ;;
           startResponseTimer now
         else if String.eqb type "response.content_part.added" then
           set_modelResponse (fun _ => "")
         else if String.eqb type "response.output_text.delta" then
           append_delta msg
         else if String.eqb type "response.output_audio_transcript.delta" then
           append_delta msg
         else if String.eqb type "response.done" then
           if differs (msg_response_status msg) "failed" then ret tt
           else stopSession
         else if String.eqb type "response.function_call_arguments.done" then
           handleFunctionCalls msg
         else ret tt
     end)
    (fun _ => stopSession).

End Methods.

End Driver.

(** ** The pixel loop of base64ToGrayScale (utils.ts) *)

Module GrayScale.

(** A byte of the pixel array as the number the arithmetic sees; exact for
    every integer below 2^53. *)
Fixpoint float_of_positive (p : positive) : float :=
  match p with
  | xH => 1%float
  | xO p' => (2 * float_of_positive p')%float
  | xI p' => (2 * float_of_positive p' + 1)%float
  end.

Definition number (z : Z) : float :=
  match z with
  | Z0 => 0%float
  | Zpos p => float_of_positive p
  | Zneg p => (- float_of_positive p)%float
  end.

Variant rounded :=
| Integer (n : Z)
| NotANumber
| Infinite (negative : bool).

(** [Math.round]: the nearest integer, a tie going towards plus infinity,
    computed exactly from the mantissa and the exponent of the argument. *)
Definition Math_round (x : float) : rounded :=
  match Prim2SF x with
  | S754_zero _ => Integer 0
  | S754_infinity negative => Infinite negative
  | S754_nan => NotANumber
  | S754_finite negative m e =>
      let n := if negative then Z.neg m else Z.pos m in
      Integer (if 0 <=? e then n * 2 ^ e
               else (2 * n + 2 ^ (- e)) / 2 ^ (1 - e))
  end.

(** Storing a number in a [Uint8ClampedArray]. *)
Definition toUint8Clamp (v : rounded) : Z :=
  match v with
  | Integer n => Z.max 0 (Z.min 255 n)
  | NotANumber => 0
  | Infinite negative => if negative then 0 else 255
  end.

Definition rW : float := 0.2126%float.
Definition gW : float := 0.7152%float.
Definition bW : float := 0.0722%float.

(** [Math.round(r * rW + g * gW + b * bW)] as stored back in the array. *)
Definition gray (r g b : Z) : Z :=
  toUint8Clamp
    (Math_round (number r * rW + number g * gW + number b * bW)%float).

(** The loop [for (i = 0; i < data.length; i += 4)] over the bytes of the
    image.  Each round reads three bytes and writes three; the fourth, if
    there is one, is not touched.  The length of an [ImageData] array is a
    multiple of four; on a tail of one or two bytes a read past the end
    gives [undefined], the sum is NaN, and the bytes that exist are stored
    as 0 (a store past the end is ignored). *)
Fixpoint grayScaleLoop (data : list Z) : list Z :=
  match data with
  | r :: g :: b :: a :: rest =>
      gray r g b :: gray r g b :: gray r g b :: a :: grayScaleLoop rest
  | [r; g; b] => [gray r g b; gray r g b; gray r g b]
  | tail => List.map (fun _ => 0) tail
  end.

End GrayScale.

(** ** The change detector on the numbers of the code *)

Module Binary64.

(** The coordinates the code compares are binary64 numbers
    ([valueAsNumber], never rounded).  This is [checkPointedPositionVariation]
    on them; [null] converts to 0 as an operand. *)
Definition num (o : option float) : float :=
  match o with
  | Some v => v
  | None => 0%float
  end.

Definition default_threshold : float := 5%float.

Definition checkPointedPositionVariation
    (currentX currentY lastX lastY : option float) (threshold : float) : bool :=
  let currNull := Driver.isNull currentX || Driver.isNull currentY in
  let lastNull := Driver.isNull lastX || Driver.isNull lastY in
  if currNull && lastNull then false
  else if negb currNull && lastNull then true
  else if currNull && negb lastNull then true
  else
    let diffX := PrimFloat.abs (num currentX - num lastX)%float in
    let diffY := PrimFloat.abs (num currentY - num lastY)%float in
    (threshold <=? diffX)%float || (threshold <=? diffY)%float.

End Binary64.

(** ** getEphemeralKey *)

Module EphemeralKey.

(** What the driver reads of the HTTP response: [res.ok], [res.status] as
    text, and [data.value] of the parsed body ([None]: no such field). *)
Record Response := mkResponse {
  ok : bool;
  status : string;
  json_value : promise (option string)
}.

(** [import.meta.env?.VITE_OPENAI_API_KEY], a string or undefined. *)
Definition getEnvApiKey (key : option string) : option string :=
  match key with
  | Some k => if negb (String.eqb k "") then Some k else None
  | None => None
  end.

(** ['Bearer ' + apiKey] *)
Definition authorization (apiKey : option string) : string :=
  "Bearer " ++ match apiKey with Some k => k | None => "null" end.

(** The body of the [try] block. *)
Definition request (env : option string)
    (fetch : string -> promise Response) : outcome string :=
  let apiKey := getEnvApiKey env in
  obind (await (fetch (authorization apiKey))) (fun res =>
  if negb (ok res) then Throw ("HTTP error:" ++ status res)
  else
    obind (await (json_value res)) (fun value =>
    if negb (truthy value) then Throw "missing ephemeral key"
    else Ret (Driver.str value))).

(** [getEphemeralKey()]: the value, or [null] from the [catch]. *)
Definition getEphemeralKey (env : option string)
    (fetch : string -> promise Response) : option string :=
  match request env fetch with
  | Ret value => Some value
  | _ => None
  end.

End EphemeralKey.

(** ** PositionView.ts *)

Module PositionView.

(** [enforceInputMinMax]: [max] and [min] are [parseInt] of the attributes
    of the input ([None]: NaN); the result is the [valueAsNumber] the input
    holds afterwards. *)
Definition enforceInputMinMax (max min valueAsNumber : option Z) : option Z :=
  match valueAsNumber with
  | None => None
  | Some value =>
      let value1 :=
        match max with
        | Some m => if m <? value then m else value
        | None => value
        end in
      let value2 :=
        match min with
        | Some n => if value1 <? n then n else value1
        | None => value1
        end in
      Some value2
  end.

End PositionView.

(** * Vocabulary of the properties *)

Import Utils Driver.

(** A pointing state has coordinates when both inputs hold a number; the
    code calls every other state "not pointing". *)
Definition absent (x y : option Z) : bool := isNull x || isNull y.

(** What [stopSession] releases: the resources held, in the order of the
    code. *)
Definition releases (s : RealtimeInteraction) : list Effect :=
  ((if dataChannel s then [Release DataChannel] else []) ++
   (if localStream s then [Release LocalStream] else []) ++
   (if peerConnection s then [Release PeerConnection] else []) ++
   (if audioElement s then [Release AudioElement] else []))%list.

(** ** The quality steps of the recompression loop *)

(** The values [quality] takes while the loop condition holds, read off
    the loop: start, test against zero, subtract a tenth. *)
Fixpoint schedule (fuel : nat) (quality : float) : list float :=
  match fuel with
  | O => []
  | S fuel' =>
      if (0 <=? quality)%float
      then quality :: schedule fuel' (quality - 0.1)%float
      else []
  end.

Definition quality_steps : list float := schedule 11 0.9%float.

(** A list of qualities goes strictly down. *)
Fixpoint decreasing (qualities : list float) : bool :=
  match qualities with
  | q1 :: ((q2 :: _) as rest) => (q2 <? q1)%float && decreasing rest
  | _ => true
  end.

(** Trying a given list of qualities in turn, stopping at the first result
    within the budget. *)
Fixpoint firstFit (W : World) (webpBlob : Blob) (budget : Z)
    (qualities : list float) : outcome (option string) :=
  match qualities with
  | [] => Ret None
  | quality :: rest =>
      obind (await (compressWebpBlob (canvas W) webpBlob quality))
        (fun compressedBlob =>
           if checkBlobSize compressedBlob budget then
             obind (await (imageToBase64 (canvas W) compressedBlob))
               (fun b64 => Ret (Some b64))
           else firstFit W webpBlob budget rest)
  end.

(** What the loop may yield when it goes through the given qualities: a
    payload from a compressed blob within the budget, [null] when every
    quality gave a blob over the budget, or the rejection of a primitive. *)
Definition fit_result (W : World) (webpBlob : Blob) (budget : Z)
    (qualities : list float) (r : outcome (option string)) : Prop :=
  match r with
  | OutOfFuel => False
  | Ret (Some b64) =>
      exists quality compressed,
        In quality qualities /\
        compressWebpBlob (canvas W) webpBlob quality = Resolved compressed /\
        blob_size compressed <= 1024 * budget /\
        imageToBase64 (canvas W) compressed = Resolved b64
  | Ret None =>
      forall quality, In quality qualities ->
        exists compressed,
          compressWebpBlob (canvas W) webpBlob quality = Resolved compressed /\
          1024 * budget < blob_size compressed
  | Throw e =>
      exists quality,
        In quality qualities /\
        (compressWebpBlob (canvas W) webpBlob quality = Rejected e \/
         exists compressed,
           compressWebpBlob (canvas W) webpBlob quality = Resolved compressed /\
           imageToBase64 (canvas W) compressed = Rejected e)
  end.

(** ** Effects of the position check *)

(** What the position check may add to the trace: a conversation item or
    the release of a resource; never a response request nor a timer. *)
Definition position_effect (e : Effect) : Prop :=
  match e with
  | Send (conversation_item_create _) => True
  | Release _ => True
  | _ => False
  end.

(** The two replies to [sleep_word]. *)
Definition already_disabled_reply : ClientEvent :=
  response_create (Some (mkResponseParams None already_disabled_instructions)).

Definition farewell_reply : ClientEvent :=
  response_create
    (Some (mkResponseParams (Some [audio]) has_been_disabled_instructions)).

(** [msg.error.code], undefined when there is no [error] object. *)
Definition error_code (msg : RealtimeMessage) : option string :=
  match msg_error msg with
  | Some err => err_code err
  | None => None
  end.

(** ** Further vocabulary *)

(** The client events of a trace, in the order they were sent. *)
Fixpoint sent (effs : list Effect) : list ClientEvent :=
  match effs with
  | [] => []
  | Send ev :: rest => ev :: sent rest
  | _ :: rest => sent rest
  end.

(** The output modality last pushed to the session by a [session.update];
    [createSessionConfig] asks for text. *)
Fixpoint session_modality (effs : list Effect) (current : option (list Modality))
    : option (list Modality) :=
  match effs with
  | [] => current
  | Send (session_update (createSessionConfig _)) :: rest =>
      session_modality rest (Some [text])
  | Send (session_update (realtime_modalities ms)) :: rest =>
      session_modality rest (Some ms)
  | _ :: rest => session_modality rest current
  end.

(** The flag [audioResponsesOn] agrees with the modality of the session. *)
Definition audio_in_sync (s : RealtimeInteraction) : Prop :=
  session_modality (effects s) None
  = Some (if audioResponsesOn s then [audio] else [text]).

(** A trace that continues another one by releases only. *)
Inductive released_after (eff : list Effect) : list Effect -> Prop :=
| released_none : released_after eff eff
| released_more eff' r :
    released_after eff eff' -> released_after eff (eff' ++ [Release r]).

(** Transport resources: none held, all four held. *)
Definition none_held (s : RealtimeInteraction) : Prop :=
  peerConnection s = false /\ audioElement s = false /\
  localStream s = false /\ dataChannel s = false.

Definition all_held (s : RealtimeInteraction) : Prop :=
  peerConnection s = true /\ audioElement s = true /\
  localStream s = true /\ dataChannel s = true.

Definition resolved {A} (p : promise A) : bool :=
  match p with
  | Resolved _ => true
  | Rejected _ => false
  end.

(** Handling a sequence of inbound events, one after the other. *)
Definition handleAll (W : World) (fuel : nat) (now : Z)
    (events : list MessageEvent) (s : RealtimeInteraction) : RealtimeInteraction :=
  fold_left (fun st e => exec (handleDataChannelMessages W fuel now e) st)
    events s.

(** An inbound text or transcript delta. *)
Definition delta_event (type : string) (delta : option string) : MessageEvent :=
  Some (mkRealtimeMessage type None delta None None).

(** The text shown in the response widget. *)
Definition shown (s : RealtimeInteraction) : option string :=
  match elements s with
  | Some ui => Some (modelResponse ui)
  | None => None
  end.

(** The text of a delta, empty when the event carries none. *)
Definition delta_text (e : MessageEvent) : string :=
  match e with
  | Some msg => str (msg_delta msg)
  | None => ""
  end.

(** The texts of a list of events, one after the other. *)
Definition joined (events : list MessageEvent) : string :=
  fold_right (fun e rest => delta_text e ++ rest) "" events.

(** The event is a text delta or a transcript delta. *)
Definition is_delta (e : MessageEvent) : Prop :=
  exists type delta,
    e = delta_event type delta /\
    (type = "response.output_text.delta"
     \/ type = "response.output_audio_transcript.delta").

(** The event types the dispatcher acts upon. *)
Definition handled_types : list string :=
  ["session.created"; "invalid_request_error"; "error";
   "input_audio_buffer.committed"; "response.content_part.added";
   "response.output_text.delta"; "response.output_audio_transcript.delta";
   "response.done"; "response.function_call_arguments.done"].

(** The bytes of a list of pixels, four per pixel. *)
Fixpoint bytes_of_pixels (pixels : list (Z * Z * Z * Z)) : list Z :=
  match pixels with
  | [] => []
  | (r, g, b, a) :: rest => r :: g :: b :: a :: bytes_of_pixels rest
  end.

(** A pixel whose three colour bytes are one and the same byte. *)
Definition gray_pixel (p : Z * Z * Z * Z) : Prop :=
  let '(r, g, b, _) := p in r = g /\ g = b /\ 0 <= r <= 255.

(** A method never exhausts the fuel. *)
Definition terminates {A} (m : M A) : Prop :=
  forall s, fst (m s) <> OutOfFuel.

(** ** Numbers and pixels *)

(** The real number a finite binary64 number stands for. *)
Definition exact (x : float) : option Q :=
  match Prim2SF x with
  | S754_zero _ => Some (inject_Z 0)
  | S754_finite negative m e =>
      let n := if negative then Z.neg m else Z.pos m in
      Some (if 0 <=? e then inject_Z (n * 2 ^ e)
            else Qmake n (Z.to_pos (2 ^ (- e))))
  | _ => None
  end.

(** The answer the specification gives for two pointing positions: the
    distance between the coordinates, as real numbers, reaches the
    threshold on the x axis or on the y axis. *)
Definition hasPositionChanged_spec (ax ay bx by_ : float) (threshold : Q)
    : option bool :=
  match exact ax, exact ay, exact bx, exact by_ with
  | Some qax, Some qay, Some qbx, Some qby =>
      Some (Qle_bool threshold (Qabs.Qabs (qax - qbx))
            || Qle_bool threshold (Qabs.Qabs (qay - qby)))
  | _, _, _, _ => None
  end.

(** A whole pixel as a number of the code. *)
Definition pixel (z : Z) : float := GrayScale.number z.

(** The coordinates a drawing of at most 600 pixels a side gives rise to:
    its pixels and the placeholder of [lastCoords]. *)
Definition pixels_and_placeholder : list Z :=
  (List.map Z.of_nat (seq 0 601) ++ [placeholder])%list.

Definition pixel_or_placeholder (z : Z) : Prop :=
  0 <= z <= 600 \/ z = placeholder.

(** On one axis, the comparison of the code and the comparison on whole
    numbers give the same answer. *)
Definition axis_agrees (a b : Z) : bool :=
  Bool.eqb
    (Binary64.default_threshold <=? PrimFloat.abs (pixel a - pixel b))%float
    (default_threshold <=? Z.abs (a - b)).

(** Both coordinates absent, on the numbers of the code. *)
Definition absent64 (x y : option float) : bool := isNull x || isNull y.

(** What the pixel loop makes of a pixel. *)
Definition grayed (p : Z * Z * Z * Z) : Z * Z * Z * Z :=
  let '(r, g, b, a) := p in
  (GrayScale.gray r g b, GrayScale.gray r g b, GrayScale.gray r g b, a).

(** ** A concrete environment *)

(** A browser in which every image arrives at 300000 bytes and the
    compressor, if [compressible], brings it to 200000 bytes at a quality
    below one half and leaves it as it is otherwise. *)
Definition demoCanvas (compressible : bool) : Canvas :=
  {| imageToBase64 := fun b => Resolved ("data:" ++ blob_type b ++ ";base64," ++ blob_data b);
     base64ToBlob := fun s => Resolved (mkBlob 300000 "image/png" s);
     reduceResolution := fun b => Resolved b;
     toWebp := fun b => Resolved (mkBlob (blob_size b) "image/webp" (blob_data b));
     compressWebpBlob := fun b q =>
       Resolved (mkBlob (if compressible && (q <? 0.5)%float then 200000
                         else blob_size b)
                   (blob_type b) (blob_data b));
     getImgDimensions := fun _ => Resolved (600, 400);
     base64ToGrayScale := fun s => Resolved ("gray:" ++ s);
     fillMarker := fun img _ _ _ => Resolved ("marked:" ++ img) |}.

Definition demoWorld (compressible : bool) : World :=
  {| canvas := demoCanvas compressible;
     getEphemeralKey := Some "ek_demo";
     new_RTCPeerConnection := true;
     getUserMedia := Resolved tt;
     createDataChannel := true;
     negotiate := Resolved tt;
     getFileData := Resolved (mkFileData "{}" (Some (Some "it-IT")));
     getFileTemplate := Resolved "template.png";
     getFileColorMap := Resolved "colorMap.png" |}.

Definition demoUI (x y : option Z) : UIElements :=
  mkUI false false "" "" "" x y "null".

(** The object after [init()] and a successful [startSession()]. *)
Definition startedSession (x y : option Z) : RealtimeInteraction :=
  exec (startSession (demoWorld true))
    (exec (init (demoUI x y)) new_RealtimeInteraction).

(** An inbound event that carries nothing but its type. *)
Definition inbound (type : string) : RealtimeMessage :=
  mkRealtimeMessage type None None None None.

(** The widgets while a session is on. *)
Definition activeUI (x y : option Z) : UIElements :=
  mkUI true false "Session on" "Audio off"
    "The model response will appear here..." x y "null".

(** The started session once [session.created] has been handled: the
    configuration and the drawing have been sent. *)
Definition activeSession (x y : option Z) : RealtimeInteraction :=
  exec (handleDataChannelMessages (demoWorld true) 11 0
          (Some (inbound "session.created")))
    (startedSession x y).

Ltac munfold :=
  unfold exec, bind, get, modify, ret, throw, lift, try_catch in *.

(** * Proofs *)

Lemma checkBlobSize_iff (b : Blob) (max_size : Z) :
  checkBlobSize b max_size = true <-> blob_size b <= 1024 * max_size.
Proof.
  unfold checkBlobSize, blobSizeInKB.
  rewrite Qle_bool_iff. unfold Qle. cbn [Qnum Qden inject_Z]. lia.
Qed.

(** ** The change detector *)

(** The detector of the driver, on whole pixels: false when the current
    and the last coordinates are both absent, true when exactly one of the
    two is absent, and, when both are present, true exactly when the
    absolute difference reaches the threshold on the x axis or on the y
    axis. *)
Theorem checkPointedPositionVariation_cases :
  forall threshold : Z,
    (forall cx cy lx ly,
        absent cx cy = true -> absent lx ly = true ->
        checkPointedPositionVariation cx cy lx ly threshold = false) /\
    (forall cx cy lx ly,
        absent cx cy = false -> absent lx ly = true ->
        checkPointedPositionVariation cx cy lx ly threshold = true) /\
    (forall cx cy lx ly,
        absent cx cy = true -> absent lx ly = false ->
        checkPointedPositionVariation cx cy lx ly threshold = true) /\
    (forall ax ay bx by_,
        checkPointedPositionVariation (Some ax) (Some ay) (Some bx) (Some by_)
          threshold = true
        <-> threshold <= Z.abs (ax - bx) \/ threshold <= Z.abs (ay - by_)).
Proof.
  intros threshold. unfold checkPointedPositionVariation, absent.
  repeat split.
  - intros cx cy lx ly -> ->. reflexivity.
  - intros cx cy lx ly -> ->. reflexivity.
  - intros cx cy lx ly -> ->. reflexivity.
  - cbn. rewrite orb_true_iff, !Z.leb_le. tauto.
  - cbn. rewrite orb_true_iff, !Z.leb_le. tauto.
Qed.

Lemma checkPointedPositionVariation_cases_witness :
  checkPointedPositionVariation None (Some 7) (Some 3) None default_threshold = false
  /\ checkPointedPositionVariation (Some 7) (Some 7) None None default_threshold = true
  /\ checkPointedPositionVariation (Some 7) None (Some 7) (Some 7) default_threshold = true
  /\ (checkPointedPositionVariation (Some 0) (Some 0) (Some 3) (Some 5)
        default_threshold = true
      <-> default_threshold <= Z.abs (0 - 3) \/ default_threshold <= Z.abs (0 - 5)).
Proof.
  destruct (checkPointedPositionVariation_cases default_threshold)
    as (Hnn & Hpn & Hnp & Hpp).
  split; [apply Hnn; reflexivity|].
  split; [apply Hpn; reflexivity|].
  split; [apply Hnp; reflexivity|].
  apply Hpp.
Defined.

(** ** Teardown *)

Lemma stopSession_spec (s : RealtimeInteraction) :
  let s' := exec stopSession s in
  fst (stopSession s) = Ret tt /\
  dataChannel s' = false /\ localStream s' = false /\
  peerConnection s' = false /\ audioElement s' = false /\
  effects s' = (effects s ++ releases s)%list /\
  lastCoords s' = lastCoords s /\
  grayScaleBase64Template s' = grayScaleBase64Template s.
Proof.
  destruct s as [pc ae ls dc ek el aro rst rs gs lc dims eff].
  destruct pc, ae, ls, dc, el as [ui|]; cbn;
    rewrite <- ?app_assoc, ?app_nil_r; cbn; repeat split; reflexivity.
Qed.

Lemma emit_effects (e : Effect) (s : RealtimeInteraction) :
  effects (emit e s) = (effects s ++ [e])%list.
Proof. reflexivity. Qed.

(** ** Reasoning about methods *)

Lemma present_threshold_iff (ax ay bx by_ threshold : Z) :
  checkPointedPositionVariation (Some ax) (Some ay) (Some bx) (Some by_)
    threshold = true
  <-> threshold <= Z.abs (ax - bx) \/ threshold <= Z.abs (ay - by_).
Proof.
  unfold checkPointedPositionVariation. cbn.
  rewrite orb_true_iff, !Z.leb_le. tauto.
Qed.

Lemma absent_current_as_null (x y lx ly : option Z) (threshold : Z) :
  absent x y = true ->
  checkPointedPositionVariation x y lx ly threshold
  = checkPointedPositionVariation None None lx ly threshold.
Proof.
  unfold checkPointedPositionVariation, absent. intros ->. cbn.
  destruct (isNull lx || isNull ly); reflexivity.
Qed.

Lemma absent_last_as_null (cx cy x y : option Z) (threshold : Z) :
  absent x y = true ->
  checkPointedPositionVariation cx cy x y threshold
  = checkPointedPositionVariation cx cy None None threshold.
Proof.
  unfold checkPointedPositionVariation, absent. intros ->. cbn.
  destruct (isNull cx || isNull cy); reflexivity.
Qed.

(** The position message either leaves [this] alone (it threw) or appends
    exactly one conversation item to the trace. *)
Lemma sendImgWithPositionAndHotspot_state (W : World) x y hs s :
  let r := sendImgWithPositionAndHotspot W x y hs s in
  fst r <> OutOfFuel /\
  (snd r = s /\ (exists e, fst r = Throw e)
   \/ exists content,
        snd r = emit (Send (conversation_item_create content)) s /\
        fst r = Ret tt).
Proof.
  unfold sendImgWithPositionAndHotspot, dataChannel_send, drawPointedPosition.
  munfold.
  destruct (truthy (grayScaleBase64Template s)); cbn;
    [| split; [discriminate | left; eauto]].
  destruct (dataChannel s) eqn:Hdc; cbn;
    [| split; [discriminate | left; eauto]].
  destruct x as [x|], y as [y|]; cbn; rewrite ?Hdc; cbn;
    try (split; [discriminate | right; eauto]).
  destruct (fillMarker _ _ _ _ _); cbn; rewrite ?Hdc; cbn.
  - split; [discriminate | right; eauto].
  - split; [discriminate | left; eauto].
Qed.

(** ** The pointed-position update flow *)

(** C7. On a turn boundary where the detector reports no change, the
    position check leaves the driver exactly as it was: nothing is sent and
    [lastCoords] is not touched; the whole handler then only requests the
    response and starts the timer. *)
Theorem unchanged_position_no_effect :
  forall (W : World) (s : RealtimeInteraction) (ui : UIElements),
    elements s = Some ui ->
    checkPointedPositionVariation (xCoord ui) (yCoord ui)
      (lastX (lastCoords s)) (lastY (lastCoords s)) default_threshold = false ->
    sendPointedPositionIfNecessary W s = (Ret tt, s) /\
    forall fuel now msg,
      msg_type msg = "input_audio_buffer.committed" ->
      dataChannel s = true ->
      let s' := exec (handleDataChannelMessages W fuel now (Some msg)) s in
      effects s' = (effects s ++ [Send (response_create None); TimerStart now])%list
      /\ lastCoords s' = lastCoords s.
Proof.
  intros W s ui Hui Hsame.
  assert (Hcheck : sendPointedPositionIfNecessary W s = (Ret tt, s)).
  { unfold sendPointedPositionIfNecessary, getCurrentPointedPosition,
      getCurrentHotspot, getLastCoords. munfold.
    rewrite Hui. cbn -[checkPointedPositionVariation].
    rewrite Hui. cbn -[checkPointedPositionVariation].
    rewrite Hsame. reflexivity. }
  split; [exact Hcheck|].
  intros fuel now msg Hty Hdc.
  unfold handleDataChannelMessages. munfold. rewrite Hty. cbn.
  rewrite Hcheck. unfold dataChannel_send, startResponseTimer. munfold.
  rewrite Hdc. cbn. rewrite <- app_assoc. split; reflexivity.
Qed.

Lemma unchanged_position_no_effect_witness :
  let s := set_lastCoords (mkCoords (Some 10) (Some 20)) (activeSession (Some 12) (Some 17)) in
  sendPointedPositionIfNecessary (demoWorld true) s = (Ret tt, s).
Proof.
  intros s.
  refine (proj1 (unchanged_position_no_effect (demoWorld true) s (ui := _) _ _)).
  - vm_compute. reflexivity.
  - vm_compute. reflexivity.
Defined.

(** C3 as stated fails: in a started session whose drawing has not been
    sent yet the grayscale template is missing, so the message cannot be
    built and nothing is sent, yet [lastCoords] already holds the new
    snapshot. *)
Lemma lastCoords_updated_without_message :
  let s := startedSession (Some 10) (Some 20) in
  let s' := exec (sendPointedPositionIfNecessary (demoWorld true)) s in
  checkPointedPositionVariation (Some 10) (Some 20)
    (lastX (lastCoords s)) (lastY (lastCoords s)) default_threshold = true
  /\ lastCoords s' = mkCoords (Some 10) (Some 20)
  /\ effects s' = (effects s ++ [Release DataChannel; Release LocalStream;
                                 Release PeerConnection; Release AudioElement])%list.
Proof.
  vm_compute. repeat split.
Qed.

(** C3, amended. When a change is detected, [lastCoords] is assigned the
    new snapshot first; the position message is then built and sent from
    that state, a failure tearing the session down.  Afterwards
    [lastCoords] holds the new snapshot whether or not a message went
    out. *)
Theorem lastCoords_assigned_before_send :
  forall (W : World) (s : RealtimeInteraction) (ui : UIElements),
    elements s = Some ui ->
    checkPointedPositionVariation (xCoord ui) (yCoord ui)
      (lastX (lastCoords s)) (lastY (lastCoords s)) default_threshold = true ->
    let snapshot := mkCoords (xCoord ui) (yCoord ui) in
    let hotspot := if String.eqb (hotspotSelect ui) "null" then None
                   else Some (hotspotSelect ui) in
    sendPointedPositionIfNecessary W s
    = try_catch
        (sendImgWithPositionAndHotspot W (xCoord ui) (yCoord ui) hotspot)
        (fun _ => stopSession)
        (set_lastCoords snapshot s)
    /\ lastCoords (exec (sendPointedPositionIfNecessary W) s) = snapshot.
Proof.
  intros W s ui Hui Hchanged snapshot hotspot.
  assert (Heq : sendPointedPositionIfNecessary W s
                = try_catch
                    (sendImgWithPositionAndHotspot W (xCoord ui) (yCoord ui) hotspot)
                    (fun _ => stopSession) (set_lastCoords snapshot s)).
  { unfold sendPointedPositionIfNecessary, getCurrentPointedPosition,
      getCurrentHotspot, getLastCoords. munfold.
    rewrite Hui. cbn -[checkPointedPositionVariation sendImgWithPositionAndHotspot].
    rewrite Hui. cbn -[checkPointedPositionVariation sendImgWithPositionAndHotspot].
    rewrite Hchanged. reflexivity. }
  split; [exact Heq|].
  unfold exec. rewrite Heq. unfold try_catch.
  destruct (sendImgWithPositionAndHotspot_state W (xCoord ui) (yCoord ui)
              hotspot (set_lastCoords snapshot s)) as [_ [[Hs [e He]]|[c [Hs He]]]];
    destruct (sendImgWithPositionAndHotspot W (xCoord ui) (yCoord ui) hotspot
                (set_lastCoords snapshot s)) as [o s1];
    cbn in Hs, He; subst.
  - destruct (stopSession_spec (set_lastCoords snapshot s))
      as (_ & _ & _ & _ & _ & _ & Hlc & _).
    exact Hlc.
  - reflexivity.
Qed.

Lemma lastCoords_assigned_before_send_witness :
  let s := activeSession (Some 10) (Some 20) in
  lastCoords (exec (sendPointedPositionIfNecessary (demoWorld true)) s)
  = mkCoords (Some 10) (Some 20).
Proof.
  intros s.
  refine (proj2 (lastCoords_assigned_before_send (demoWorld true) s
                   (ui := activeUI (Some 10) (Some 20)) _ _)).
  - vm_compute. reflexivity.
  - vm_compute. reflexivity.
Defined.

(** ** Partially filled coordinates *)

(** C10. A state in which a coordinate is absent, in particular one with
    exactly one of the two absent, is the not-pointing state everywhere:
    the detector answers as for two absent coordinates, on either side; the
    update flow sends the "not pointing" text and no image; and
    [drawPointedPosition] gives back its input image. *)
Theorem partial_coordinates_not_pointing :
  forall x y : option Z,
    absent x y = true ->
    (forall lx ly threshold,
        checkPointedPositionVariation x y lx ly threshold
        = checkPointedPositionVariation None None lx ly threshold) /\
    (forall cx cy threshold,
        checkPointedPositionVariation cx cy x y threshold
        = checkPointedPositionVariation cx cy None None threshold) /\
    (forall (W : World) hotspot s,
        truthy (grayScaleBase64Template s) = true ->
        dataChannel s = true ->
        sendImgWithPositionAndHotspot W x y hotspot s
        = (Ret tt,
           emit (Send (conversation_item_create [input_text not_pointing_text])) s)) /\
    (forall (cv : Canvas) base64Img radius,
        drawPointedPosition cv base64Img x y radius = Ret base64Img).
Proof.
  intros x y Habs. repeat split.
  - intros. now apply absent_current_as_null.
  - intros. now apply absent_last_as_null.
  - intros W hotspot s Hgray Hdc.
    unfold sendImgWithPositionAndHotspot, dataChannel_send. munfold.
    rewrite Hgray, Hdc. cbn. unfold absent in Habs. rewrite Habs. cbn.
    rewrite Hdc. reflexivity.
  - intros cv base64Img radius. unfold drawPointedPosition.
    destruct x, y; try reflexivity. discriminate Habs.
Qed.

Lemma partial_coordinates_not_pointing_witness :
  checkPointedPositionVariation None (Some 40) (Some 40) (Some 40) default_threshold
  = checkPointedPositionVariation None None (Some 40) (Some 40) default_threshold
  /\ drawPointedPosition (demoCanvas true) "img" (Some 3) None default_radius
     = Ret "img".
Proof.
  split.
  - apply (partial_coordinates_not_pointing None (Some 40)). reflexivity.
  - apply (partial_coordinates_not_pointing (Some 3) None). reflexivity.
Defined.

(** ** Session start *)

Lemma bind_Ret {A B} (m : M A) (k : A -> M B) s a s' :
  m s = (Ret a, s') -> bind m k s = k a s'.
Proof. unfold bind. intros ->. reflexivity. Qed.

Lemma stopSession_returns (s : RealtimeInteraction) :
  exists s', stopSession s = (Ret tt, s').
Proof.
  destruct (stopSession_spec s) as [H _].
  destruct (stopSession s) as [o s']. cbn in H. subst. eauto.
Qed.

Section Setup.

Variable W : World.

Lemma setupPeerConnection_ok s :
  new_RTCPeerConnection W = true ->
  setupPeerConnection W s = (Ret true, set_peerConnection true s).
Proof.
  intros H. unfold setupPeerConnection. munfold. cbn. rewrite H. reflexivity.
Qed.

Lemma setupRemoteAudio_ok s :
  peerConnection s = true ->
  setupRemoteAudio s = (Ret true, set_audioElement true s).
Proof.
  intros H. unfold setupRemoteAudio. munfold. rewrite H. reflexivity.
Qed.

Lemma setupLocalAudio_ok s :
  peerConnection s = true ->
  getUserMedia W = Resolved tt ->
  setupLocalAudio W s = (Ret true, set_localStream true s).
Proof.
  intros H Hm. unfold setupLocalAudio. munfold. rewrite H, Hm. reflexivity.
Qed.

Lemma setupDataChannel_ok s :
  peerConnection s = true ->
  createDataChannel W = true ->
  setupDataChannel W s = (Ret true, set_dataChannel true s).
Proof.
  intros H Hc. unfold setupDataChannel. munfold. rewrite H. cbn.
  rewrite Hc. reflexivity.
Qed.

Lemma connectToModel_returns s :
  exists s', connectToModel W s = (Ret tt, s').
Proof.
  unfold connectToModel. munfold.
  destruct (peerConnection s); cbn [negb].
  - destruct (negotiate W); cbn [await].
    + destruct a. eauto.
    + apply stopSession_returns.
  - destruct (stopSession_returns s) as [s' ->]. eauto.
Qed.

End Setup.

(** ** The detector on the numbers of the code *)

Lemma axis_table :
  forallb (fun a => forallb (axis_agrees a) pixels_and_placeholder)
    pixels_and_placeholder = true.
Proof. vm_compute. reflexivity. Qed.

Lemma pixel_or_placeholder_listed (z : Z) :
  pixel_or_placeholder z -> In z pixels_and_placeholder.
Proof.
  unfold pixels_and_placeholder. intros [Hz | ->]; apply in_or_app.
  - left. rewrite <- (Z2Nat.id z) by lia.
    apply in_map, in_seq. lia.
  - right. now left.
Qed.

Lemma axis_exact (a b : Z) :
  pixel_or_placeholder a -> pixel_or_placeholder b ->
  (Binary64.default_threshold <=? PrimFloat.abs (pixel a - pixel b))%float
  = (default_threshold <=? Z.abs (a - b)).
Proof.
  intros Ha Hb.
  pose proof (proj1 (forallb_forall _ _) axis_table a
                (pixel_or_placeholder_listed Ha)) as Hrow.
  cbv beta in Hrow.
  pose proof (proj1 (forallb_forall _ _) Hrow b
                (pixel_or_placeholder_listed Hb)) as Hcell.
  unfold axis_agrees in Hcell. now apply Bool.eqb_prop.
Qed.

Lemma detector64_on_pixels (ax ay bx by_ : Z) :
  pixel_or_placeholder ax -> pixel_or_placeholder ay ->
  pixel_or_placeholder bx -> pixel_or_placeholder by_ ->
  Binary64.checkPointedPositionVariation
    (Some (pixel ax)) (Some (pixel ay)) (Some (pixel bx)) (Some (pixel by_))
    Binary64.default_threshold
  = checkPointedPositionVariation (Some ax) (Some ay) (Some bx) (Some by_)
      default_threshold.
Proof.
  intros Hax Hay Hbx Hby.
  unfold Binary64.checkPointedPositionVariation, checkPointedPositionVariation.
  cbn [isNull orb andb negb Binary64.num num].
  now rewrite (axis_exact Hax Hbx), (axis_exact Hay Hby).
Qed.

(** C1 as stated fails on fractional positions: from (0.1, 0) to (5.1, 0)
    the code computes the difference 5.1 - 0.1 as exactly 5 and answers
    true, while the distance between the two numbers is below 5 on both
    axes. *)
Lemma fractional_positions_rounded_up :
  Binary64.checkPointedPositionVariation
    (Some 5.1%float) (Some 0%float) (Some 0.1%float) (Some 0%float)
    Binary64.default_threshold = true
  /\ hasPositionChanged_spec 5.1%float 0%float 0.1%float 0%float (inject_Z 5)
     = Some false.
Proof. split; vm_compute; reflexivity. Qed.

(** C1, amended. For every threshold, the detector answers false when the
    current and the last coordinates are both absent and true when exactly
    one of the two is absent; when both are present it answers true
    exactly when the absolute value of the binary64 difference of the x
    coordinates, or of the y coordinates, is at least the threshold.  On
    whole-pixel coordinates (0 to 600, and the placeholder 100000) and the
    default threshold this is exactly [5 <= |ax - bx|] or [5 <= |ay - by|],
    and the detector of the driver gives the same answer. *)
Theorem checkPointedPositionVariation_binary64_cases :
  (forall (threshold : float) cx cy lx ly,
      absent64 cx cy = true -> absent64 lx ly = true ->
      Binary64.checkPointedPositionVariation cx cy lx ly threshold = false) /\
  (forall (threshold : float) cx cy lx ly,
      absent64 cx cy = false -> absent64 lx ly = true ->
      Binary64.checkPointedPositionVariation cx cy lx ly threshold = true) /\
  (forall (threshold : float) cx cy lx ly,
      absent64 cx cy = true -> absent64 lx ly = false ->
      Binary64.checkPointedPositionVariation cx cy lx ly threshold = true) /\
  (forall (threshold ax ay bx by_ : float),
      Binary64.checkPointedPositionVariation
        (Some ax) (Some ay) (Some bx) (Some by_) threshold = true
      <-> (threshold <=? PrimFloat.abs (ax - bx))%float = true
          \/ (threshold <=? PrimFloat.abs (ay - by_))%float = true) /\
  (forall ax ay bx by_ : Z,
      pixel_or_placeholder ax -> pixel_or_placeholder ay ->
      pixel_or_placeholder bx -> pixel_or_placeholder by_ ->
      (Binary64.checkPointedPositionVariation
         (Some (pixel ax)) (Some (pixel ay)) (Some (pixel bx)) (Some (pixel by_))
         Binary64.default_threshold = true
       <-> default_threshold <= Z.abs (ax - bx)
           \/ default_threshold <= Z.abs (ay - by_)) /\
      Binary64.checkPointedPositionVariation
        (Some (pixel ax)) (Some (pixel ay)) (Some (pixel bx)) (Some (pixel by_))
        Binary64.default_threshold
      = checkPointedPositionVariation (Some ax) (Some ay) (Some bx) (Some by_)
          default_threshold).
Proof.
  unfold Binary64.checkPointedPositionVariation, absent64.
  split; [|split; [|split; [|split]]].
  - intros threshold cx cy lx ly -> ->. reflexivity.
  - intros threshold cx cy lx ly -> ->. reflexivity.
  - intros threshold cx cy lx ly -> ->. reflexivity.
  - intros threshold ax ay bx by_.
    cbn [isNull orb andb negb Binary64.num]. apply orb_true_iff.
  - intros ax ay bx by_ Hax Hay Hbx Hby.
    pose proof (detector64_on_pixels Hax Hay Hbx Hby) as Heq.
    unfold Binary64.checkPointedPositionVariation in Heq.
    split; [|exact Heq].
    rewrite Heq. apply present_threshold_iff.
Qed.

Lemma checkPointedPositionVariation_binary64_cases_witness :
  Binary64.checkPointedPositionVariation None (Some 7.5%float) (Some 3%float) None
    Binary64.default_threshold = false
  /\ Binary64.checkPointedPositionVariation (Some 7.5%float) (Some 7%float)
       None None Binary64.default_threshold = true
  /\ (Binary64.checkPointedPositionVariation
        (Some (pixel 3)) (Some (pixel 3)) (Some (pixel 0)) (Some (pixel 0))
        Binary64.default_threshold = true
      <-> default_threshold <= Z.abs (3 - 0)
          \/ default_threshold <= Z.abs (3 - 0)).
Proof.
  destruct checkPointedPositionVariation_binary64_cases
    as (Hnn & Hpn & _ & _ & Hpix).
  split; [apply Hnn; reflexivity|].
  split; [apply Hpn; reflexivity|].
  apply Hpix; left; lia.
Defined.

(** ** The initial value of lastCoords *)

(** C2 as stated fails: the placeholder is a pair of numbers, so a user who
    starts without pointing is seen as having stopped pointing, and the
    first cycle counts as a change. *)
Lemma first_cycle_not_pointing_changed :
  let s := activeSession None None in
  lastCoords s = mkCoords (Some 100000) (Some 100000)
  /\ checkPointedPositionVariation None None
       (lastX (lastCoords s)) (lastY (lastCoords s)) default_threshold = true
  /\ effects (exec (sendPointedPositionIfNecessary (demoWorld true)) s)
     = (effects s
        ++ [Send (conversation_item_create [input_text not_pointing_text])])%list.
Proof. vm_compute. repeat split. Qed.

(** C2, amended. [lastCoords] starts as the placeholder (100000, 100000),
    by the field initialiser and again at the end of every [startSession]
    whose acquisitions succeed.  Against it the detector answers true for a
    user pointing at a whole pixel exactly when the position is at least
    the threshold away from 100000 on some axis, and true for a user who
    is not pointing.  The same holds of the detector on the numbers of the
    code: true for a user who is not pointing, and true at every pixel, 0
    to 600, of a drawing. *)
Theorem lastCoords_placeholder_first_cycle :
  lastCoords new_RealtimeInteraction
  = mkCoords (Some placeholder) (Some placeholder)
  /\ (forall (W : World) s,
         truthy (getEphemeralKey W) = true ->
         new_RTCPeerConnection W = true ->
         getUserMedia W = Resolved tt ->
         createDataChannel W = true ->
         lastCoords (exec (startSession W) s)
         = mkCoords (Some placeholder) (Some placeholder))
  /\ (forall x y,
         checkPointedPositionVariation (Some x) (Some y)
           (Some placeholder) (Some placeholder) default_threshold = true
         <-> default_threshold <= Z.abs (x - placeholder)
             \/ default_threshold <= Z.abs (y - placeholder))
  /\ (forall x y,
         absent x y = true ->
         checkPointedPositionVariation x y
           (Some placeholder) (Some placeholder) default_threshold = true)
  /\ (forall x y : option float,
         absent64 x y = true ->
         Binary64.checkPointedPositionVariation x y
           (Some (pixel placeholder)) (Some (pixel placeholder))
           Binary64.default_threshold = true)
  /\ (forall x y : Z,
         0 <= x <= 600 -> 0 <= y <= 600 ->
         Binary64.checkPointedPositionVariation
           (Some (pixel x)) (Some (pixel y))
           (Some (pixel placeholder)) (Some (pixel placeholder))
           Binary64.default_threshold = true).
Proof.
  split; [reflexivity|]. split; [|split; [|split; [|split]]].
  - intros W s Hkey Hpc Hmedia Hch.
    unfold exec, startSession.
    erewrite bind_Ret by reflexivity.
    erewrite bind_Ret by reflexivity.
    replace (ephemeralKey (set_ephemeralKey (getEphemeralKey W) s))
      with (getEphemeralKey W) by reflexivity.
    rewrite Hkey. cbn [negb].
    erewrite bind_Ret by (apply setupPeerConnection_ok; assumption).
    cbn [negb].
    erewrite bind_Ret by (apply setupRemoteAudio_ok; reflexivity).
    cbn [negb].
    erewrite bind_Ret by (apply setupLocalAudio_ok; [reflexivity | assumption]).
    cbn [negb].
    erewrite bind_Ret by (apply setupDataChannel_ok; [reflexivity | assumption]).
    cbn [negb].
    match goal with
    | |- context [bind (connectToModel W) _ ?s0] =>
        destruct (connectToModel_returns W s0) as [s1 Hc]
    end.
    erewrite bind_Ret by exact Hc.
    reflexivity.
  - intros x y. apply present_threshold_iff.
  - intros x y Habs. rewrite absent_current_as_null by assumption. reflexivity.
  - intros x y Habs. unfold Binary64.checkPointedPositionVariation.
    unfold absent64 in Habs. rewrite Habs. reflexivity.
  - intros x y Hx Hy.
    rewrite detector64_on_pixels;
      [| now left | now left | now right | now right].
    apply present_threshold_iff. left.
    unfold placeholder, default_threshold. lia.
Qed.

Lemma lastCoords_placeholder_first_cycle_witness :
  lastCoords (exec (startSession (demoWorld true))
                (set_lastCoords (mkCoords (Some 1) None) new_RealtimeInteraction))
  = mkCoords (Some placeholder) (Some placeholder)
  /\ checkPointedPositionVariation (Some 7) None
       (Some placeholder) (Some placeholder) default_threshold = true.
Proof.
  destruct lastCoords_placeholder_first_cycle as (_ & Hstart & _ & Habs & _).
  split.
  - apply Hstart; reflexivity.
  - apply Habs. reflexivity.
Defined.

(** ** The recompression loop *)

Example quality_steps_values :
  quality_steps
  = [0.9; 0.8; 0.7000000000000001; 0.6000000000000001; 0.5000000000000001;
     0.40000000000000013; 0.30000000000000016; 0.20000000000000015;
     0.10000000000000014; 1.3877787807814457e-16]%float.
Proof. vm_compute. reflexivity. Qed.

Lemma quality_steps_length : List.length quality_steps = 10%nat.
Proof. vm_compute. reflexivity. Qed.

Lemma schedule_stable (fuel : nat) :
  forall (quality : float) (fuel' : nat),
    (List.length (schedule fuel quality) < fuel)%nat ->
    (fuel <= fuel')%nat ->
    schedule fuel' quality = schedule fuel quality.
Proof.
  induction fuel as [|fuel IH]; intros quality fuel' Hlen Hle.
  - inversion Hlen.
  - destruct fuel' as [|fuel']; [lia|].
    cbn [schedule] in *.
    destruct (0 <=? quality)%float; [|reflexivity].
    cbn [List.length] in Hlen. f_equal. apply IH; lia.
Qed.

Section RecompressionLoop.

Variable W : World.
Variable webpBlob : Blob.
Variable budget : Z.

Lemma qualityLoop_firstFit (fuel : nat) :
  forall quality : float,
    (List.length (schedule fuel quality) < fuel)%nat ->
    qualityLoop W fuel webpBlob budget quality
    = firstFit W webpBlob budget (schedule fuel quality).
Proof.
  induction fuel as [|fuel IH]; intros quality Hlen.
  - inversion Hlen.
  - cbn [qualityLoop schedule] in *.
    destruct (0 <=? quality)%float; [|reflexivity].
    cbn [List.length firstFit] in *.
    destruct (compressWebpBlob (canvas W) webpBlob quality) as [cb|e];
      cbn [await obind]; [|reflexivity].
    destruct (checkBlobSize cb budget); [reflexivity|].
    apply IH. lia.
Qed.

Lemma fit_result_cons quality qualities r :
  (exists compressed,
      compressWebpBlob (canvas W) webpBlob quality = Resolved compressed /\
      1024 * budget < blob_size compressed) ->
  fit_result W webpBlob budget qualities r ->
  fit_result W webpBlob budget (quality :: qualities) r.
Proof.
  intros Hhead. destruct r as [[b64|]|e|]; cbn [fit_result].
  - intros (q & c & Hin & H). exists q, c. split; [now right | exact H].
  - intros Hall q [<-|Hin]; [exact Hhead | now apply Hall].
  - intros (q & Hin & H). exists q. split; [now right | exact H].
  - exact (fun H => H).
Qed.

Lemma firstFit_result (qualities : list float) :
  fit_result W webpBlob budget qualities (firstFit W webpBlob budget qualities).
Proof.
  induction qualities as [|quality rest IH]; cbn [firstFit].
  - intros quality [].
  - destruct (compressWebpBlob (canvas W) webpBlob quality) as [cb|e] eqn:Hc;
      cbn [await obind].
    + destruct (checkBlobSize cb budget) eqn:Hfit.
      * apply checkBlobSize_iff in Hfit.
        destruct (imageToBase64 (canvas W) cb) as [b64|e] eqn:Hb;
          cbn [await obind fit_result].
        -- exists quality, cb. cbn [In]. auto.
        -- exists quality. cbn [In]. split; [auto|]. right. exists cb. auto.
      * apply fit_result_cons; [|exact IH].
        exists cb. split; [exact Hc|].
        destruct (Z.le_gt_cases (blob_size cb) (1024 * budget)) as [Hle|Hgt];
          [|exact Hgt].
        apply checkBlobSize_iff in Hle. congruence.
    + cbn [fit_result]. exists quality. cbn [In]. auto.
Qed.

Lemma qualityLoop_enough_fuel (fuel : nat) :
  (11 <= fuel)%nat ->
  qualityLoop W fuel webpBlob budget 0.9%float
  = firstFit W webpBlob budget quality_steps.
Proof.
  intros Hfuel.
  assert (Hlen : (List.length (schedule 11 0.9%float) < 11)%nat)
    by (vm_compute; lia).
  pose proof (@schedule_stable 11 0.9%float fuel Hlen Hfuel) as Hst.
  rewrite qualityLoop_firstFit; rewrite Hst; [reflexivity | lia].
Qed.

End RecompressionLoop.

(** C5. Started at quality 0.9, the recompression loop of
    [getSendableImage] ends after at most ten quality steps, for every
    image, budget and environment: once the fuel covers eleven evaluations
    of the loop condition the result no longer depends on it and is never
    [OutOfFuel].  The result is a payload obtained at one of the ten steps
    from a blob whose size is within the budget, or [null] after all ten
    steps gave a blob over the budget, or the rejection of a browser
    primitive at one of the steps. *)
Theorem qualityLoop_terminates_within_budget :
  forall (W : World) (webpBlob : Blob) (budget : Z) (fuel : nat),
    (11 <= fuel)%nat ->
    let r := qualityLoop W fuel webpBlob budget 0.9%float in
    r = qualityLoop W 11 webpBlob budget 0.9%float /\
    List.length quality_steps = 10%nat /\
    fit_result W webpBlob budget quality_steps r.
Proof.
  intros W webpBlob budget fuel Hfuel r. subst r.
  rewrite (@qualityLoop_enough_fuel W webpBlob budget fuel Hfuel).
  rewrite (@qualityLoop_enough_fuel W webpBlob budget 11%nat (le_n 11)).
  split; [reflexivity|]. split; [exact quality_steps_length|].
  apply firstFit_result.
Qed.

Lemma qualityLoop_terminates_within_budget_witness :
  qualityLoop (demoWorld true) 40 (mkBlob 300000 "image/webp" "x") 220 0.9%float
  = qualityLoop (demoWorld true) 11 (mkBlob 300000 "image/webp" "x") 220 0.9%float.
Proof.
  refine (proj1 (qualityLoop_terminates_within_budget (demoWorld true)
                   (mkBlob 300000 "image/webp" "x") 220 (fuel := 40) _)).
  lia.
Defined.

(** ** Bootstrap *)

Lemma getSendableImageWithin_terminates (W : World) (budget : Z) (fuel : nat)
    (initialBase64Image : string) :
  (11 <= fuel)%nat ->
  getSendableImageWithin W budget fuel initialBase64Image <> OutOfFuel.
Proof.
  intros Hfuel. unfold getSendableImageWithin.
  destruct (base64ToBlob (canvas W) initialBase64Image) as [blob|e];
    cbn [await obind rethrow]; [|discriminate].
  destruct (reduceResolution (canvas W) blob) as [reduced|e];
    cbn [await obind rethrow]; [|discriminate].
  destruct (toWebp (canvas W) reduced) as [webp|e];
    cbn [await obind rethrow]; [|discriminate].
  destruct (checkBlobSize webp budget).
  - destruct (imageToBase64 (canvas W) webp); cbn [await obind rethrow];
      discriminate.
  - rewrite (@qualityLoop_enough_fuel W webp budget fuel Hfuel).
    pose proof (firstFit_result W webp budget quality_steps) as Hres.
    destruct (firstFit W webp budget quality_steps) as [r|e|];
      cbn [rethrow]; [discriminate | discriminate | destruct Hres].
Qed.

Lemma sendData_open (data : string) (s : RealtimeInteraction) :
  dataChannel s = true ->
  sendData data s
  = (Ret tt,
     emit (Send (conversation_item_create
                   [input_text "Tactile drawing data:"; input_text data])) s).
Proof.
  intros Hdc. unfold sendData, dataChannel_send. munfold.
  rewrite Hdc. cbn [negb]. rewrite Hdc. reflexivity.
Qed.

(** C4. When [getSendableImage] returns [null] for the template or for the
    colour map, the bootstrap ends in [stopSession]: the four transport
    resources are released, and of the drawing only the textual data has
    gone out, no image. *)
Theorem oversized_image_aborts_session :
  forall (W : World) (fuel : nat) (s : RealtimeInteraction)
         (data : FileData) (template colorMap : string),
    (11 <= fuel)%nat ->
    dataChannel s = true ->
    getFileData W = Resolved data ->
    getFileTemplate W = Resolved template ->
    getFileColorMap W = Resolved colorMap ->
    getSendableImage W fuel template = Ret None
    \/ getSendableImage W fuel colorMap = Ret None ->
    let s' := exec (sendFileContent W fuel) s in
    dataChannel s' = false /\ localStream s' = false /\
    peerConnection s' = false /\ audioElement s' = false /\
    effects s'
    = (effects s
       ++ Send (conversation_item_create
                  [input_text "Tactile drawing data:";
                   input_text (stringify data)])
       :: releases s)%list.
Proof.
  intros W fuel s data template colorMap Hfuel Hdc Hdata Htpl Hmap Hnull s'.
  set (sent := emit (Send (conversation_item_create
                             [input_text "Tactile drawing data:";
                              input_text (stringify data)])) s).
  assert (Heq : sendFileContent W fuel s = stopSession sent).
  { unfold sendFileContent.
    erewrite bind_Ret by reflexivity. rewrite Hdc. cbn [negb].
    rewrite Hdata, Htpl, Hmap.
    pose proof (@getSendableImageWithin_terminates W maxImageSize fuel template
                  Hfuel) as Ht.
    pose proof (@getSendableImageWithin_terminates W maxImageSize fuel colorMap
                  Hfuel) as Hc.
    fold (getSendableImage W fuel template) in Ht.
    fold (getSendableImage W fuel colorMap) in Hc.
    assert (Hbody : forall k1 : option string -> option string -> M unit, exists e,
      (_ <- sendData (stringify data) ;;
       finalTemplateOutput <- lift (getSendableImage W fuel template) ;;
       finalColorMapOutput <- lift (getSendableImage W fuel colorMap) ;;
       if negb (truthy finalTemplateOutput) then
         throw "The template image is too large to be sent"
       else if negb (truthy finalColorMapOutput) then
         throw "The color map image is too large to be sent"
       else k1 finalTemplateOutput finalColorMapOutput)%M s
      = (@Throw unit e, sent)).
    { intros k1. erewrite bind_Ret by (apply sendData_open; exact Hdc).
      fold sent. unfold bind at 1, lift at 1.
      destruct (getSendableImage W fuel template) as [t|e|] eqn:Et;
        [| eauto | contradiction].
      unfold bind at 1, lift at 1.
      destruct (getSendableImage W fuel colorMap) as [c|e|] eqn:Ec;
        [| eauto | contradiction].
      destruct Hnull as [Hn|Hn]; inversion Hn; subst.
      - cbn [truthy negb]. unfold throw. eauto.
      - destruct (truthy t); cbn [truthy negb]; unfold throw; eauto. }
    unfold try_catch.
    erewrite bind_Ret by reflexivity.
    erewrite bind_Ret by reflexivity.
    erewrite bind_Ret by reflexivity.
    match goal with
    | |- context [bind _ (fun _ => bind _ (fun t => bind _ (fun c =>
                    if _ then _ else if _ then _ else @?k t c))) s] =>
        destruct (Hbody k) as [e He]
    end.
    rewrite He. reflexivity. }
  subst s'. unfold exec. rewrite Heq.
  destruct (stopSession_spec sent) as (_ & H1 & H2 & H3 & H4 & H5 & _).
  unfold exec in *. repeat split; try assumption.
  rewrite H5. unfold sent. rewrite emit_effects, <- app_assoc. reflexivity.
Qed.

Lemma oversized_image_aborts_session_witness :
  let s := startedSession None None in
  let s' := exec (sendFileContent (demoWorld false) 11) s in
  dataChannel s' = false /\ localStream s' = false /\
  peerConnection s' = false /\ audioElement s' = false /\
  effects s'
  = (effects s
     ++ Send (conversation_item_create
                [input_text "Tactile drawing data:"; input_text "{}"])
     :: releases s)%list.
Proof.
  intros s.
  refine (@oversized_image_aborts_session (demoWorld false) 11%nat s
            (mkFileData "{}" (Some (Some "it-IT")))
            "template.png" "colorMap.png" _ _ _ _ _ _).
  - lia.
  - reflexivity.
  - reflexivity.
  - reflexivity.
  - reflexivity.
  - left. vm_compute. reflexivity.
Defined.

(** ** Turn boundary *)

Lemma releases_position_effects (s : RealtimeInteraction) :
  Forall position_effect (releases s).
Proof.
  unfold releases.
  destruct (dataChannel s), (localStream s), (peerConnection s),
    (audioElement s); cbn; repeat constructor.
Qed.

Lemma bind_Throw {A B} (m : M A) (k : A -> M B) s e s' :
  m s = (Throw e, s') -> bind m k s = (Throw e, s').
Proof. unfold bind. intros ->. reflexivity. Qed.

Lemma dataChannel_send_open ev s :
  dataChannel s = true ->
  dataChannel_send ev s = (Ret tt, emit (Send ev) s).
Proof. intros H. unfold dataChannel_send. munfold. now rewrite H. Qed.

Lemma dataChannel_send_closed ev s :
  dataChannel s = false ->
  dataChannel_send ev s
  = (Throw "TypeError: Cannot read properties of null (reading 'send')", s).
Proof. intros H. unfold dataChannel_send. munfold. now rewrite H. Qed.

Lemma getCurrentPointedPosition_some s ui :
  elements s = Some ui ->
  getCurrentPointedPosition s = (Ret (xCoord ui, yCoord ui), s).
Proof. intros H. unfold getCurrentPointedPosition. munfold. now rewrite H. Qed.

Lemma getCurrentPointedPosition_none s :
  elements s = None ->
  getCurrentPointedPosition s = (Throw "UI elements not initialized", s).
Proof. intros H. unfold getCurrentPointedPosition. munfold. now rewrite H. Qed.

Lemma getCurrentHotspot_some s ui :
  elements s = Some ui ->
  getCurrentHotspot s
  = (Ret (if String.eqb (hotspotSelect ui) "null" then None
          else Some (hotspotSelect ui)), s).
Proof. intros H. unfold getCurrentHotspot. munfold. now rewrite H. Qed.

Lemma getLastCoords_eq s :
  getLastCoords s = (Ret (lastX (lastCoords s), lastY (lastCoords s)), s).
Proof. reflexivity. Qed.

Lemma sendPointedPositionIfNecessary_effects (W : World) (s : RealtimeInteraction) :
  exists s1 added,
    sendPointedPositionIfNecessary W s = (Ret tt, s1) /\
    effects s1 = (effects s ++ added)%list /\
    Forall position_effect added.
Proof.
  assert (Hstop : forall s0 added0,
             effects s0 = (effects s ++ added0)%list ->
             Forall position_effect added0 ->
             exists s1 added,
               stopSession s0 = (Ret tt, s1) /\
               effects s1 = (effects s ++ added)%list /\
               Forall position_effect added).
  { intros s0 added0 Heff Hall.
    destruct (stopSession_spec s0) as (Hret & _ & _ & _ & _ & He & _).
    unfold exec in *. destruct (stopSession s0) as [o s1]. cbn in Hret, He.
    subst o. exists s1, (added0 ++ releases s0)%list. split; [reflexivity|].
    split.
    - rewrite He, Heff, app_assoc. reflexivity.
    - apply Forall_app. split; [assumption | apply releases_position_effects]. }
  unfold sendPointedPositionIfNecessary, try_catch.
  destruct (elements s) as [ui|] eqn:Hui.
  - erewrite bind_Ret by (apply getCurrentPointedPosition_some; exact Hui).
    cbv beta iota.
    erewrite bind_Ret by (apply getCurrentHotspot_some; exact Hui).
    erewrite bind_Ret by apply getLastCoords_eq.
    cbv beta iota.
    destruct (checkPointedPositionVariation _ _ _ _ _).
    + erewrite bind_Ret by reflexivity.
      match goal with
      | |- context [sendImgWithPositionAndHotspot W ?x ?y ?h ?s0] =>
          destruct (sendImgWithPositionAndHotspot_state W x y h s0)
            as [_ [[Hs [e He]]|[c [Hs He]]]];
          destruct (sendImgWithPositionAndHotspot W x y h s0) as [o s1]
      end; cbn [fst snd] in Hs, He; subst.
      * apply (Hstop _ []); [now rewrite app_nil_r | constructor].
      * eexists _, [_]. split; [reflexivity|]. split; [reflexivity|].
        repeat constructor.
    + exists s, []. rewrite app_nil_r. repeat split. constructor.
  - erewrite bind_Throw by (apply getCurrentPointedPosition_none; exact Hui).
    apply (Hstop s []); [now rewrite app_nil_r | constructor].
Qed.

(** C6. On [input_audio_buffer.committed] the position check runs to its
    end first: everything it adds to the trace (at most one conversation
    item, or the releases of a teardown) comes before the response request
    and the start of the timer, which follow in this order when the data
    channel is still open. *)
Theorem position_check_before_response_request :
  forall (W : World) (fuel : nat) (now : Z) (s : RealtimeInteraction)
         (msg : RealtimeMessage),
    msg_type msg = "input_audio_buffer.committed" ->
    let s1 := exec (sendPointedPositionIfNecessary W) s in
    let s2 := exec (handleDataChannelMessages W fuel now (Some msg)) s in
    exists added,
      effects s1 = (effects s ++ added)%list /\
      Forall position_effect added /\
      effects s2
      = (effects s1
         ++ (if dataChannel s1
             then [Send (response_create None); TimerStart now]
             else releases s1))%list /\
      (dataChannel s1 = true -> requestStartTime s2 = Some now).
Proof.
  intros W fuel now s msg Hty s1 s2.
  destruct (sendPointedPositionIfNecessary_effects W s)
    as (s1' & added & Hrun & Heff & Hall).
  assert (Hs1 : s1 = s1') by (unfold s1, exec; now rewrite Hrun).
  exists added. rewrite Hs1. split; [exact Heff|]. split; [exact Hall|].
  assert (Hs2 : handleDataChannelMessages W fuel now (Some msg) s
                = try_catch (dataChannel_send (response_create None) ;;
                             startResponseTimer now)%M
                    (fun _ => stopSession) s1').
  { unfold handleDataChannelMessages, try_catch. rewrite Hty.
    cbn [String.eqb Ascii.eqb Bool.eqb].
    erewrite bind_Ret by exact Hrun. reflexivity. }
  unfold s2, exec. rewrite Hs2.
  unfold try_catch.
  destruct (dataChannel s1') eqn:Hdc.
  - erewrite bind_Ret by (apply dataChannel_send_open; exact Hdc).
    unfold startResponseTimer. munfold. cbn.
    rewrite <- app_assoc. split; reflexivity.
  - erewrite bind_Throw by (apply dataChannel_send_closed; exact Hdc).
    destruct (stopSession_spec s1') as (_ & _ & _ & _ & _ & He & _).
    unfold exec in He. split; [exact He | discriminate].
Qed.

Lemma position_check_before_response_request_witness :
  let s := activeSession (Some 10) (Some 20) in
  let s1 := exec (sendPointedPositionIfNecessary (demoWorld true)) s in
  let s2 := exec (handleDataChannelMessages (demoWorld true) 11 42
                    (Some (inbound "input_audio_buffer.committed"))) s in
  exists added,
    effects s1 = (effects s ++ added)%list /\
    Forall position_effect added /\
    effects s2
    = (effects s1
       ++ (if dataChannel s1
           then [Send (response_create None); TimerStart 42]
           else releases s1))%list /\
    (dataChannel s1 = true -> requestStartTime s2 = Some 42).
Proof.
  intros s.
  apply (position_check_before_response_request (demoWorld true) 11 42 s
           (inbound "input_audio_buffer.committed")).
  reflexivity.
Defined.

(** ** The sleep word *)

(** C8. A [sleep_word] call on an open data channel.  With audio already
    off, the only thing done is to request one reply, with the short
    "already disabled" instructions and no modality of its own (so in the
    text modality of the session); no [session.update] goes out.  With
    audio on, the session is switched to text by a [session.update], then
    [audioResponsesOn] is cleared, then exactly one reply is requested, in
    the audio modality. *)
Theorem sleep_word_replies :
  forall (s : RealtimeInteraction) (msg : RealtimeMessage),
    msg_name msg = Some "sleep_word" ->
    dataChannel s = true ->
    (audioResponsesOn s = false ->
     handleFunctionCalls msg s = (Ret tt, emit (Send already_disabled_reply) s)) /\
    (audioResponsesOn s = true ->
     forall ui, elements s = Some ui ->
       let switched :=
         emit (Send (session_update (realtime_modalities [text]))) s in
       let silenced := exec (handleAudioState false) switched in
       handleFunctionCalls msg s = (Ret tt, emit (Send farewell_reply) silenced)
       /\ audioResponsesOn silenced = false
       /\ effects silenced = effects switched
       /\ effects (emit (Send farewell_reply) silenced)
          = (effects s
             ++ [Send (session_update (realtime_modalities [text]));
                 Send farewell_reply])%list).
Proof.
  intros s msg Hname Hdc.
  unfold handleFunctionCalls. rewrite Hname.
  cbn [String.eqb Ascii.eqb Bool.eqb].
  unfold detached, try_catch, disableAudio.
  erewrite bind_Ret by reflexivity. rewrite Hdc. cbn [negb].
  split.
  - intros Hoff. rewrite Hoff. cbn [negb].
    rewrite (dataChannel_send_open _ s Hdc). reflexivity.
  - intros Hon ui Hui.
    set (switched := emit (Send (session_update (realtime_modalities [text]))) s).
    set (silenced := exec (handleAudioState false) switched).
    rewrite Hon. cbn [negb].
    erewrite bind_Ret by (apply dataChannel_send_open; exact Hdc).
    fold switched.
    assert (Hsil : handleAudioState false switched = (Ret tt, silenced)).
    { unfold silenced, exec, handleAudioState. munfold.
      replace (elements switched) with (Some ui) by (symmetry; exact Hui).
      reflexivity. }
    assert (Hprops : audioResponsesOn silenced = false /\
                     effects silenced = effects switched /\
                     dataChannel silenced = true).
    { unfold silenced, exec, handleAudioState. munfold.
      replace (elements switched) with (Some ui) by (symmetry; exact Hui).
      cbn. repeat split. exact Hdc. }
    destruct Hprops as (Haro & Heff & Hdc').
    erewrite bind_Ret by exact Hsil.
    unfold feedbackAudioDisabled.
    erewrite bind_Ret by reflexivity. rewrite Hdc'. cbn [negb].
    rewrite (dataChannel_send_open _ silenced Hdc').
    split; [reflexivity|]. split; [exact Haro|]. split; [exact Heff|].
    rewrite emit_effects, Heff. unfold switched.
    rewrite emit_effects, <- app_assoc. reflexivity.
Qed.

Lemma sleep_word_replies_witness :
  let s := activeSession None None in
  let msg := mkRealtimeMessage "response.function_call_arguments.done"
               None None (Some "sleep_word") None in
  handleFunctionCalls msg s = (Ret tt, emit (Send already_disabled_reply) s).
Proof.
  intros s msg.
  refine (proj1 (@sleep_word_replies s msg _ _) _); reflexivity.
Defined.

(** ** Error events *)

(** C9. An inbound event of type [error] tears the session down exactly
    when its error code is not [conversation_already_has_active_response]
    (an event without error object or without code counts as another
    code); with that code the handler changes nothing. *)
Theorem error_event_teardown_iff_not_benign :
  forall (W : World) (fuel : nat) (now : Z) (s : RealtimeInteraction)
         (msg : RealtimeMessage),
    msg_type msg = "error" ->
    let r := handleDataChannelMessages W fuel now (Some msg) s in
    (error_code msg = Some benign_code -> r = (Ret tt, s)) /\
    (error_code msg <> Some benign_code -> r = stopSession s) /\
    (dataChannel s = true ->
     (dataChannel (snd r) = false <-> error_code msg <> Some benign_code)).
Proof.
  intros W fuel now s msg Hty r.
  assert (Hr : r = if differs (error_code msg) benign_code
                   then stopSession s else (Ret tt, s)).
  { unfold r, handleDataChannelMessages, try_catch, error_code.
    rewrite Hty. cbn [String.eqb Ascii.eqb Bool.eqb].
    destruct (msg_error msg) as [err|]; [|reflexivity].
    destruct (differs (err_code err) benign_code); [|reflexivity].
    destruct (stopSession_returns s) as [s' ->]. reflexivity. }
  assert (Hdiff : differs (error_code msg) benign_code = true
                  <-> error_code msg <> Some benign_code).
  { unfold differs. destruct (error_code msg) as [c|].
    - rewrite negb_true_iff. split.
      + intros Hneq [= ->]. now rewrite String.eqb_refl in Hneq.
      + intros Hneq. apply String.eqb_neq. congruence.
    - split; [discriminate | reflexivity]. }
  rewrite Hr. clear Hr.
  destruct (differs (error_code msg) benign_code).
  - pose proof (proj1 Hdiff eq_refl) as Hne. repeat split.
    + intros Hb. contradiction.
    + intros _. exact Hne.
    + intros _. destruct (stopSession_spec s) as (_ & Hdc & _). exact Hdc.
  - assert (Hb : ~ error_code msg <> Some benign_code).
    { intros Hne. apply Hdiff in Hne. discriminate. }
    repeat split.
    + intros Hne. contradiction.
    + cbn [snd]. congruence.
    + intros Hne. contradiction.
Qed.

Lemma error_event_teardown_iff_not_benign_witness :
  let s := activeSession None None in
  let benign := mkRealtimeMessage "error"
                  (Some (mkErrorObject (Some "busy") (Some benign_code)))
                  None None None in
  let other := mkRealtimeMessage "error"
                 (Some (mkErrorObject None (Some "rate_limit_exceeded")))
                 None None None in
  handleDataChannelMessages (demoWorld true) 11 0 (Some benign) s = (Ret tt, s)
  /\ handleDataChannelMessages (demoWorld true) 11 0 (Some other) s
     = stopSession s.
Proof.
  intros s benign other. split.
  - refine (proj1 (@error_event_teardown_iff_not_benign (demoWorld true) 11%nat
                     0 s benign _) _); reflexivity.
  - refine (proj1 (proj2 (@error_event_teardown_iff_not_benign (demoWorld true)
                            11%nat 0 s other _)) _);
      [reflexivity | discriminate].
Defined.

(** * Further properties of the code *)

(** ** Teardown and start *)

(** X1. [stopSession] can be called in any state and any number of times:
    after it no transport resource is held, each resource that was held
    has been released once, and a second call returns the same state
    without releasing anything. *)
Theorem stopSession_idempotent :
  forall s : RealtimeInteraction,
    let s1 := exec stopSession s in
    none_held s1 /\
    effects s1 = (effects s ++ releases s)%list /\
    releases s1 = [] /\
    stopSession s1 = (Ret tt, s1).
Proof.
  intros s s1.
  assert (Heff : effects s1 = (effects s ++ releases s)%list)
    by apply stopSession_spec.
  split; [|split; [exact Heff|]]; clear Heff; subst s1;
    destruct s as [pc ae ls dc ek el aro rst rs gs lc dims eff];
    destruct pc, ae, ls, dc, el as [ui|];
    vm_compute; repeat split; reflexivity.
Qed.

Lemma sent_app (l1 l2 : list Effect) :
  sent (l1 ++ l2) = (sent l1 ++ sent l2)%list.
Proof.
  induction l1 as [|[ev|r|t] l1 IH]; cbn; rewrite ?IH; reflexivity.
Qed.

Lemma released_after_sent (eff eff' : list Effect) :
  released_after eff eff' -> sent eff' = sent eff.
Proof.
  induction 1 as [|eff' r _ IH]; [reflexivity|].
  rewrite sent_app, IH. cbn. apply app_nil_r.
Qed.

(** X2. Started with no resource held, [startSession] ends with all four
    transport resources held or with none: they are held exactly when the
    credential, the peer connection, the microphone, the data channel and
    the negotiation all succeeded.  It sends nothing on the data channel. *)
Theorem startSession_all_or_nothing :
  forall (W : World) (s : RealtimeInteraction),
    none_held s ->
    let s' := exec (startSession W) s in
    let up := truthy (getEphemeralKey W) && new_RTCPeerConnection W
              && resolved (getUserMedia W) && createDataChannel W
              && resolved (negotiate W) in
    (if up then all_held s' else none_held s') /\
    sent (effects s') = sent (effects s).
Proof.
  intros W s (Hpc & Hae & Hls & Hdc).
  destruct s as [pc ae ls dc ek el aro rst rs gs lc dims eff].
  cbn in Hpc, Hae, Hls, Hdc. subst pc ae ls dc.
  destruct W as [cv key newpc media newdc neg fd ft fc].
  intros s' up. split.
  - subst s' up. unfold none_held, all_held.
    destruct key as [[|c k]|], newpc, media as [[]|e1], newdc, neg as [[]|e2],
      el as [ui|]; vm_compute; repeat split; reflexivity.
  - apply released_after_sent. subst s'.
    destruct key as [[|c k]|], newpc, media as [[]|e1], newdc, neg as [[]|e2],
      el as [ui|]; vm_compute; repeat constructor.
Qed.

Lemma startSession_all_or_nothing_witness :
  all_held (exec (startSession (demoWorld true)) new_RealtimeInteraction).
Proof.
  refine (proj1 (@startSession_all_or_nothing (demoWorld true)
                   new_RealtimeInteraction _)).
  repeat split.
Defined.

(** ** Bootstrap messages *)

Lemma initSession_config (W : World) (s : RealtimeInteraction) :
  dataChannel s = true ->
  exists lang,
    initSession W s
    = (Ret tt, emit (Send (session_update (createSessionConfig lang))) s).
Proof.
  intros Hdc. unfold initSession.
  erewrite bind_Ret by reflexivity. rewrite Hdc. cbn [negb].
  unfold try_catch at 1, bind at 2, lift, bind at 1.
  destruct (getFileData W) as [data|e]; cbn [await].
  - destruct (metadata data) as [l|]; unfold throw, ret;
      rewrite (dataChannel_send_open _ s Hdc); eauto.
  - unfold ret. rewrite (dataChannel_send_open _ s Hdc). eauto.
Qed.

(** X3. On an open data channel [initSession] never fails and sends exactly
    one [session.update] carrying the full configuration.  The language of
    the configuration is English (US) whenever the data file cannot be
    fetched, has no metadata or names no language; otherwise it is the
    name of the language code of the file. *)
Theorem initSession_one_config :
  forall (W : World) (s : RealtimeInteraction),
    dataChannel s = true ->
    exists lang,
      initSession W s
      = (Ret tt, emit (Send (session_update (createSessionConfig lang))) s) /\
      (forall e, getFileData W = Rejected e -> lang = "English (US)") /\
      (forall data, getFileData W = Resolved data ->
         metadata data = None -> lang = "English (US)") /\
      (forall data l, getFileData W = Resolved data ->
         metadata data = Some l -> truthy l = false -> lang = "English (US)") /\
      (forall data l, getFileData W = Resolved data ->
         metadata data = Some l ->
         In (str l) ["en-US"; "en-GB"; "en-AU"; "it-IT"; "fr-FR"; "es-ES"] ->
         lang = mapLangCodeToName (str l)).
Proof.
  intros W s Hdc. unfold initSession.
  erewrite bind_Ret by reflexivity. rewrite Hdc. cbn [negb].
  unfold try_catch at 1, bind at 2, lift, bind at 1.
  destruct (getFileData W) as [data|e] eqn:Hfd; cbn [await].
  - destruct (metadata data) as [l|] eqn:Hmd; unfold throw, ret.
    + destruct (truthy l) eqn:Hl.
      * exists (mapLangCodeToName (str l)).
        rewrite (dataChannel_send_open _ s Hdc).
        split; [reflexivity|]. repeat split; try discriminate.
        -- intros d [= <-] Hn. congruence.
        -- intros d l' [= <-] Hs Ht. congruence.
        -- intros d l' [= <-] Hs _. congruence.
      * exists "English (US)".
        rewrite (dataChannel_send_open _ s Hdc).
        split; [reflexivity|]. repeat split; try discriminate.
        intros d l' [= <-] Hs Hin.
        assert (l' = l) by congruence. subst l'.
        destruct l as [[|c k]|]; cbn in Hl; try discriminate;
          cbn in Hin; intuition discriminate.
    + exists "English (US)".
      rewrite (dataChannel_send_open _ s Hdc).
      split; [reflexivity|]. repeat split; try discriminate.
      intros d l' [= <-] Hs Ht. congruence.
  - exists "English (US)". unfold ret.
    rewrite (dataChannel_send_open _ s Hdc).
    split; [reflexivity|]. repeat split; discriminate.
Qed.

Lemma initSession_one_config_witness :
  exists lang,
    initSession (demoWorld true) (startedSession None None)
    = (Ret tt, emit (Send (session_update (createSessionConfig lang)))
                 (startedSession None None)).
Proof.
  destruct (@initSession_one_config (demoWorld true) (startedSession None None)
              eq_refl) as (lang & H & _).
  exists lang. exact H.
Defined.

Lemma bind_lift {A B} (o : outcome A) (k : A -> M B) s :
  bind (lift o) k s
  = match o with
    | Ret a => k a s
    | Throw e => (Throw e, s)
    | OutOfFuel => (OutOfFuel, s)
    end.
Proof. destruct o; reflexivity. Qed.

Lemma sendImage_open (base64Image type : string) (s : RealtimeInteraction) :
  dataChannel s = true ->
  sendImage base64Image type s
  = (Ret tt,
     emit (Send (conversation_item_create
                   [input_text
                      (if String.eqb type "template"
                       then "Tactile drawing template image:"
                       else if String.eqb type "colorMap"
                            then "Tactile drawing color map image:"
                            else "");
                    input_image base64Image])) s).
Proof.
  intros Hdc. unfold sendImage.
  erewrite bind_Ret by reflexivity. rewrite Hdc. cbn [negb].
  apply dataChannel_send_open. exact Hdc.
Qed.

Lemma stopSession_closes (s : RealtimeInteraction) :
  fst (stopSession s) = Ret tt /\
  none_held (exec stopSession s) /\
  sent (effects (exec stopSession s)) = sent (effects s).
Proof.
  destruct (stopSession_spec s) as (Hr & H1 & H2 & H3 & H4 & He & _).
  split; [exact Hr|]. split; [unfold none_held; auto|].
  rewrite He, sent_app.
  replace (sent (releases s)) with (@nil ClientEvent); [apply app_nil_r|].
  unfold releases.
  destruct (dataChannel s), (localStream s), (peerConnection s),
    (audioElement s); reflexivity.
Qed.

(** The three messages of the drawing. *)
Lemma sendFileContent_cases (W : World) (fuel : nat) (s : RealtimeInteraction) :
  (11 <= fuel)%nat ->
  dataChannel s = true ->
  let data_sent data :=
    emit (Send (conversation_item_create
                  [input_text "Tactile drawing data:";
                   input_text (stringify data)])) s in
  sendFileContent W fuel s = stopSession s
  \/ (exists data, getFileData W = Resolved data /\
        sendFileContent W fuel s = stopSession (data_sent data))
  \/ (exists data gray, getFileData W = Resolved data /\
        sendFileContent W fuel s
        = stopSession (set_grayScaleBase64Template (Some gray) (data_sent data)))
  \/ (exists data gray dims template colorMap,
        getFileData W = Resolved data /\
        sendFileContent W fuel s
        = (Ret tt,
           emit (Send (conversation_item_create
                         [input_text "Tactile drawing color map image:";
                          input_image colorMap]))
             (emit (Send (conversation_item_create
                            [input_text "Tactile drawing template image:";
                             input_image template]))
                (set_imgDimensions dims
                   (set_grayScaleBase64Template (Some gray) (data_sent data)))))).
Proof.
  intros Hfuel Hdc data_sent. unfold sendFileContent.
  erewrite bind_Ret by reflexivity. rewrite Hdc. cbn [negb].
  unfold try_catch.
  rewrite bind_lift.
  destruct (getFileData W) as [data|e]; cbn [await]; [|left; reflexivity].
  rewrite bind_lift.
  destruct (getFileTemplate W) as [t|e]; cbn [await]; [|left; reflexivity].
  rewrite bind_lift.
  destruct (getFileColorMap W) as [c|e]; cbn [await]; [|left; reflexivity].
  right.
  erewrite bind_Ret by (apply sendData_open; exact Hdc).
  fold (data_sent data).
  pose proof (@getSendableImageWithin_terminates W maxImageSize fuel t Hfuel) as Ht.
  pose proof (@getSendableImageWithin_terminates W maxImageSize fuel c Hfuel) as Hc.
  fold (getSendableImage W fuel t) in Ht.
  fold (getSendableImage W fuel c) in Hc.
  rewrite bind_lift.
  destruct (getSendableImage W fuel t) as [ft|e|];
    [| left; exists data; split; reflexivity | contradiction].
  rewrite bind_lift.
  destruct (getSendableImage W fuel c) as [fc|e|];
    [| left; exists data; split; reflexivity | contradiction].
  destruct (truthy ft); cbn [negb];
    [| left; exists data; split; reflexivity].
  destruct (truthy fc); cbn [negb];
    [| left; exists data; split; reflexivity].
  rewrite bind_lift.
  destruct (base64ToGrayScale (canvas W) (str ft)) as [gray|e]; cbn [await];
    [| left; exists data; split; reflexivity].
  right.
  erewrite bind_Ret by reflexivity.
  rewrite bind_lift.
  destruct (getImgDimensions (canvas W) (str ft)) as [dims|e]; cbn [await];
    [| left; exists data, gray; split; reflexivity].
  right. exists data, gray, dims, (str ft), (str fc).
  split; [reflexivity|].
  erewrite bind_Ret by reflexivity.
  erewrite bind_Ret by (apply sendImage_open; exact Hdc).
  rewrite sendImage_open by exact Hdc.
  reflexivity.
Qed.

(** X4. With enough fuel, [sendFileContent] on an open channel has two
    outcomes only.  Either the data text, the template image and the
    colour map image went out, in this order, the grayscale template is
    cached, and the resources stay as they were; or the session has been
    torn down with no image sent (at most the data text went out). *)
Theorem bootstrap_complete_or_torn_down :
  forall (W : World) (fuel : nat) (s : RealtimeInteraction),
    (11 <= fuel)%nat ->
    dataChannel s = true ->
    let s' := exec (sendFileContent W fuel) s in
    fst (sendFileContent W fuel s) = Ret tt /\
    ((exists data gray template colorMap,
         sent (effects s')
         = (sent (effects s)
            ++ [conversation_item_create
                  [input_text "Tactile drawing data:";
                   input_text (stringify data)];
                conversation_item_create
                  [input_text "Tactile drawing template image:";
                   input_image template];
                conversation_item_create
                  [input_text "Tactile drawing color map image:";
                   input_image colorMap]])%list /\
         grayScaleBase64Template s' = Some gray /\
         dataChannel s' = true /\ peerConnection s' = peerConnection s /\
         localStream s' = localStream s /\ audioElement s' = audioElement s)
     \/ (none_held s' /\
         (sent (effects s') = sent (effects s)
          \/ exists data,
               sent (effects s')
               = (sent (effects s)
                  ++ [conversation_item_create
                        [input_text "Tactile drawing data:";
                         input_text (stringify data)]])%list))).
Proof.
  intros W fuel s Hfuel Hdc s'. subst s'. unfold exec.
  destruct (sendFileContent_cases W s Hfuel Hdc)
    as [H|[(data & _ & H)|[(data & gray & _ & H)|(data & gray & dims & t & c & _ & H)]]];
    rewrite H.
  - destruct (stopSession_closes s) as (Hr & Hn & Hs).
    split; [exact Hr|]. right. split; [exact Hn|]. left. exact Hs.
  - match goal with |- context [stopSession ?s0] =>
      destruct (stopSession_closes s0) as (Hr & Hn & Hs) end.
    split; [exact Hr|]. right. split; [exact Hn|]. right. exists data.
    unfold exec in Hs. rewrite Hs. rewrite emit_effects, sent_app. reflexivity.
  - match goal with |- context [stopSession ?s0] =>
      destruct (stopSession_closes s0) as (Hr & Hn & Hs) end.
    split; [exact Hr|]. right. split; [exact Hn|]. right. exists data.
    unfold exec in Hs. rewrite Hs.
    change (effects (set_grayScaleBase64Template (Some gray) ?x))
      with (effects x).
    rewrite emit_effects, sent_app. reflexivity.
  - split; [reflexivity|]. left. exists data, gray, t, c. cbn [snd].
    split; [|repeat split; exact Hdc].
    rewrite !emit_effects.
    change (effects (set_imgDimensions dims ?x)) with (effects x).
    change (effects (set_grayScaleBase64Template (Some gray) ?x))
      with (effects x).
    rewrite emit_effects, !sent_app, <- !app_assoc. reflexivity.
Qed.

Lemma bootstrap_complete_or_torn_down_witness :
  fst (sendFileContent (demoWorld true) 11 (startedSession None None)) = Ret tt.
Proof.
  refine (proj1 (@bootstrap_complete_or_torn_down (demoWorld true) 11%nat
                   (startedSession None None) _ _)).
  - lia.
  - reflexivity.
Defined.

(** ** Sendable images *)

Lemma qualityLoop_payload (W : World) (webpBlob : Blob) (budget : Z)
    (fuel : nat) :
  forall (quality : float) (b64 : string),
    qualityLoop W fuel webpBlob budget quality = Ret (Some b64) ->
    exists compressed,
      imageToBase64 (canvas W) compressed = Resolved b64 /\
      blob_size compressed <= 1024 * budget.
Proof.
  induction fuel as [|fuel IH]; intros quality b64; cbn [qualityLoop].
  - discriminate.
  - destruct (0 <=? quality)%float; [|discriminate].
    destruct (compressWebpBlob (canvas W) webpBlob quality) as [cb|e];
      cbn [await obind]; [|discriminate].
    destruct (checkBlobSize cb budget) eqn:Hfit; [|apply IH].
    destruct (imageToBase64 (canvas W) cb) as [b|e] eqn:Hb;
      cbn [await obind]; [|discriminate].
    intros [= <-]. exists cb. split; [exact Hb|].
    now apply checkBlobSize_iff.
Qed.

(** X5. Whatever the fuel, a payload returned by [getSendableImage] is the
    encoding of a blob of at most 220 KB (225280 bytes), and an exception
    it raises always carries the prefix of its [catch] block. *)
Theorem getSendableImage_payload_within_budget :
  forall (W : World) (fuel : nat) (initialBase64Image : string),
    match getSendableImage W fuel initialBase64Image with
    | Ret (Some b64) =>
        exists blob,
          imageToBase64 (canvas W) blob = Resolved b64 /\
          blob_size blob <= 225280
    | Throw e => exists cause, e = "Image processing failed:" ++ cause
    | _ => True
    end.
Proof.
  intros W fuel img. unfold getSendableImage, getSendableImageWithin.
  destruct (base64ToBlob (canvas W) img) as [blob|e];
    cbn [await obind rethrow]; [|eauto].
  destruct (reduceResolution (canvas W) blob) as [reduced|e];
    cbn [await obind rethrow]; [|eauto].
  destruct (toWebp (canvas W) reduced) as [webp|e];
    cbn [await obind rethrow]; [|eauto].
  destruct (checkBlobSize webp maxImageSize) eqn:Hfit.
  - destruct (imageToBase64 (canvas W) webp) as [b64|e] eqn:Hb;
      cbn [await obind rethrow]; [|eauto].
    exists webp. split; [exact Hb|].
    apply checkBlobSize_iff in Hfit. exact Hfit.
  - destruct (qualityLoop W fuel webp maxImageSize 0.9%float) as [[b64|]|e|] eqn:Hl;
      cbn [rethrow]; [|exact I|eauto|exact I].
    destruct (qualityLoop_payload W webp maxImageSize fuel _ Hl) as (cb & Hb & Hs).
    exists cb. split; [exact Hb | exact Hs].
Qed.

Lemma firstFit_first (W : World) (webpBlob : Blob) (budget : Z)
    (qualities : list float) (b64 : string) :
  firstFit W webpBlob budget qualities = Ret (Some b64) ->
  exists before quality after compressed,
    qualities = (before ++ quality :: after)%list /\
    (forall q, In q before ->
       exists cb, compressWebpBlob (canvas W) webpBlob q = Resolved cb /\
                  1024 * budget < blob_size cb) /\
    compressWebpBlob (canvas W) webpBlob quality = Resolved compressed /\
    blob_size compressed <= 1024 * budget /\
    imageToBase64 (canvas W) compressed = Resolved b64.
Proof.
  induction qualities as [|q rest IH]; cbn [firstFit]; [discriminate|].
  destruct (compressWebpBlob (canvas W) webpBlob q) as [cb|e] eqn:Hc;
    cbn [await obind]; [|discriminate].
  destruct (checkBlobSize cb budget) eqn:Hfit.
  - destruct (imageToBase64 (canvas W) cb) as [b|e] eqn:Hb;
      cbn [await obind]; [|discriminate].
    intros [= <-]. exists [], q, rest, cb.
    split; [reflexivity|]. split; [intros q' []|].
    split; [exact Hc|]. split; [now apply checkBlobSize_iff | exact Hb].
  - intros Hrest.
    destruct (IH Hrest) as (before & quality & after & compressed & -> & Hover & H).
    exists (q :: before), quality, after, compressed.
    split; [reflexivity|]. split; [|exact H].
    intros q' [<-|Hin]; [|now apply Hover].
    exists cb. split; [exact Hc|].
    destruct (Z.le_gt_cases (blob_size cb) (1024 * budget)) as [Hle|Hgt];
      [|exact Hgt].
    apply checkBlobSize_iff in Hle. congruence.
Qed.

(** X6. The recompression loop keeps the best quality that fits: the
    qualities go strictly down, and a payload it returns was obtained at a
    step all of whose predecessors gave a blob over the budget. *)
Theorem qualityLoop_keeps_best_quality :
  forall (W : World) (webpBlob : Blob) (budget : Z) (fuel : nat) (b64 : string),
    (11 <= fuel)%nat ->
    qualityLoop W fuel webpBlob budget 0.9%float = Ret (Some b64) ->
    decreasing quality_steps = true /\
    exists before quality after compressed,
      quality_steps = (before ++ quality :: after)%list /\
      (forall q, In q before ->
         exists cb, compressWebpBlob (canvas W) webpBlob q = Resolved cb /\
                    1024 * budget < blob_size cb) /\
      compressWebpBlob (canvas W) webpBlob quality = Resolved compressed /\
      blob_size compressed <= 1024 * budget /\
      imageToBase64 (canvas W) compressed = Resolved b64.
Proof.
  intros W webpBlob budget fuel b64 Hfuel Hloop.
  split; [vm_compute; reflexivity|].
  rewrite (@qualityLoop_enough_fuel W webpBlob budget fuel Hfuel) in Hloop.
  now apply firstFit_first.
Qed.

Lemma qualityLoop_keeps_best_quality_witness :
  let W := demoWorld true in
  let webpBlob := mkBlob 300000 "image/webp" "x" in
  decreasing quality_steps = true /\
  exists before quality after compressed,
    quality_steps = (before ++ quality :: after)%list /\
    (forall q, In q before ->
       exists cb, compressWebpBlob (canvas W) webpBlob q = Resolved cb /\
                  1024 * 220 < blob_size cb) /\
    compressWebpBlob (canvas W) webpBlob quality = Resolved compressed /\
    blob_size compressed <= 1024 * 220 /\
    imageToBase64 (canvas W) compressed = Resolved "data:image/webp;base64,x".
Proof.
  intros W webpBlob.
  refine (@qualityLoop_keeps_best_quality W webpBlob 220 11%nat
            "data:image/webp;base64,x" _ _).
  - lia.
  - vm_compute. reflexivity.
Defined.

(** ** The audio toggle *)

Lemma handleAudioState_initialised (state : bool) (s : RealtimeInteraction)
    (ui : UIElements) :
  elements s = Some ui ->
  let s' := exec (handleAudioState state) s in
  handleAudioState state s = (Ret tt, s') /\
  audioResponsesOn s' = state /\
  effects s' = effects s /\
  dataChannel s' = dataChannel s /\
  (exists ui', elements s' = Some ui').
Proof.
  intros Hui. unfold exec, handleAudioState. munfold. rewrite Hui. cbn.
  repeat split. eauto.
Qed.

(** X7. A [wake_word] call on an open data channel.  With audio already on,
    one reply with the "already enabled" instructions is requested and no
    [session.update] goes out.  With audio off, the session is switched to
    audio by a [session.update], then [audioResponsesOn] is set, then a
    plain response is requested. *)
Theorem wake_word_replies :
  forall (s : RealtimeInteraction) (msg : RealtimeMessage),
    msg_name msg = Some "wake_word" ->
    dataChannel s = true ->
    (audioResponsesOn s = true ->
     handleFunctionCalls msg s
     = (Ret tt,
        emit (Send (response_create
                      (Some (mkResponseParams None already_enabled_instructions))))
          s)) /\
    (audioResponsesOn s = false ->
     forall ui, elements s = Some ui ->
       let switched :=
         emit (Send (session_update (realtime_modalities [audio]))) s in
       let voiced := exec (handleAudioState true) switched in
       handleFunctionCalls msg s
       = (Ret tt, emit (Send (response_create None)) voiced)
       /\ audioResponsesOn voiced = true
       /\ effects (emit (Send (response_create None)) voiced)
          = (effects s
             ++ [Send (session_update (realtime_modalities [audio]));
                 Send (response_create None)])%list).
Proof.
  intros s msg Hname Hdc.
  unfold handleFunctionCalls. rewrite Hname.
  cbn [String.eqb Ascii.eqb Bool.eqb].
  unfold enableAudio.
  erewrite bind_Ret by reflexivity. rewrite Hdc. cbn [negb].
  split.
  - intros Hon. rewrite Hon.
    apply dataChannel_send_open. exact Hdc.
  - intros Hoff ui Hui.
    set (switched := emit (Send (session_update (realtime_modalities [audio]))) s).
    set (voiced := exec (handleAudioState true) switched).
    rewrite Hoff.
    erewrite bind_Ret by (apply dataChannel_send_open; exact Hdc).
    fold switched.
    destruct (@handleAudioState_initialised true switched ui Hui)
      as (Hrun & Haro & Heff & Hdc' & _).
    fold voiced in Hrun, Haro, Heff, Hdc'.
    erewrite bind_Ret by exact Hrun.
    rewrite dataChannel_send_open by (rewrite Hdc'; exact Hdc).
    split; [reflexivity|]. split; [exact Haro|].
    rewrite emit_effects, Heff. unfold switched.
    rewrite emit_effects, <- app_assoc. reflexivity.
Qed.

Lemma wake_word_replies_witness :
  let s := activeSession None None in
  let msg := mkRealtimeMessage "response.function_call_arguments.done"
               None None (Some "wake_word") None in
  effects (exec (handleFunctionCalls msg) s)
  = (effects s
     ++ [Send (session_update (realtime_modalities [audio]));
         Send (response_create None)])%list.
Proof.
  intros s msg.
  destruct (@wake_word_replies s msg eq_refl eq_refl) as [_ Hoff].
  destruct (Hoff eq_refl (activeUI None None) eq_refl) as (Hrun & _ & Heff).
  unfold exec. rewrite Hrun. exact Heff.
Defined.

(** X8. Function calls that do nothing or end the session: a call whose
    name is neither [wake_word] nor [sleep_word] (or that has no name)
    leaves the driver unchanged; [wake_word] and [sleep_word] on a closed
    data channel send nothing and tear the session down. *)
Theorem function_call_edge_cases :
  forall (s : RealtimeInteraction) (msg : RealtimeMessage),
    (msg_name msg <> Some "wake_word" ->
     msg_name msg <> Some "sleep_word" ->
     handleFunctionCalls msg s = (Ret tt, s)) /\
    (dataChannel s = false ->
     msg_name msg = Some "wake_word" \/ msg_name msg = Some "sleep_word" ->
     handleFunctionCalls msg s = stopSession s).
Proof.
  intros s msg. unfold handleFunctionCalls. split.
  - intros Hw Hs. destruct (msg_name msg) as [name|]; [|reflexivity].
    destruct (String.eqb_spec name "wake_word") as [->|_]; [congruence|].
    destruct (String.eqb_spec name "sleep_word") as [->|_]; [congruence|].
    reflexivity.
  - intros Hdc [Hn|Hn]; rewrite Hn; cbn [String.eqb Ascii.eqb Bool.eqb].
    + unfold enableAudio. erewrite bind_Ret by reflexivity.
      rewrite Hdc. reflexivity.
    + unfold detached, try_catch, disableAudio.
      erewrite bind_Ret by reflexivity. rewrite Hdc. cbn [negb].
      destruct (stopSession_returns s) as [s' ->]. reflexivity.
Qed.

Lemma function_call_edge_cases_witness :
  let s := activeSession None None in
  handleFunctionCalls
    (mkRealtimeMessage "response.function_call_arguments.done"
       None None (Some "get_weather") None) s = (Ret tt, s)
  /\ handleFunctionCalls
       (mkRealtimeMessage "response.function_call_arguments.done"
          None None (Some "sleep_word") None) (exec stopSession s)
     = stopSession (exec stopSession s).
Proof.
  intros s. split.
  - apply function_call_edge_cases; discriminate.
  - apply function_call_edge_cases; [reflexivity | right; reflexivity].
Defined.

Lemma session_modality_app (l1 l2 : list Effect) :
  forall current,
    session_modality (l1 ++ l2) current
    = session_modality l2 (session_modality l1 current).
Proof.
  induction l1 as [|e l1 IH]; intros current; [reflexivity|].
  destruct e as [[[lang|ms]|content|response]|r|t]; cbn; apply IH.
Qed.

Lemma enableAudio_summary (s : RealtimeInteraction) (ui : UIElements) :
  dataChannel s = true ->
  elements s = Some ui ->
  let s' := exec enableAudio s in
  audioResponsesOn s' = true /\
  exists response,
    effects s'
    = (effects s
       ++ (if audioResponsesOn s then []
           else [Send (session_update (realtime_modalities [audio]))])
       ++ [Send (response_create response)])%list.
Proof.
  intros Hdc Hui. unfold exec, enableAudio.
  erewrite bind_Ret by reflexivity. rewrite Hdc. cbn [negb].
  destruct (audioResponsesOn s) eqn:Haro.
  - rewrite dataChannel_send_open by exact Hdc. cbn [snd].
    split; [exact Haro|]. eexists. rewrite emit_effects. reflexivity.
  - erewrite bind_Ret by (apply dataChannel_send_open; exact Hdc).
    destruct (@handleAudioState_initialised true
                (emit (Send (session_update (realtime_modalities [audio]))) s)
                ui Hui) as (Hrun & Ha & Heff & Hdc' & _).
    erewrite bind_Ret by exact Hrun.
    rewrite dataChannel_send_open by (rewrite Hdc'; exact Hdc). cbn [snd].
    split; [exact Ha|]. eexists.
    rewrite emit_effects, Heff, emit_effects, <- app_assoc. reflexivity.
Qed.

Lemma disableAudio_summary (s : RealtimeInteraction) (ui : UIElements) :
  dataChannel s = true ->
  elements s = Some ui ->
  exists s',
    disableAudio s = (Ret tt, s') /\
    audioResponsesOn s' = false /\
    exists response,
      effects s'
      = (effects s
         ++ (if audioResponsesOn s
             then [Send (session_update (realtime_modalities [text]))]
             else [])
         ++ [Send (response_create response)])%list.
Proof.
  intros Hdc Hui. unfold disableAudio.
  erewrite bind_Ret by reflexivity. rewrite Hdc. cbn [negb].
  destruct (audioResponsesOn s) eqn:Haro; cbn [negb].
  - erewrite bind_Ret by (apply dataChannel_send_open; exact Hdc).
    destruct (@handleAudioState_initialised false
                (emit (Send (session_update (realtime_modalities [text]))) s)
                ui Hui) as (Hrun & Ha & Heff & Hdc' & _).
    erewrite bind_Ret by exact Hrun.
    unfold feedbackAudioDisabled.
    assert (Hopen : dataChannel
                      (exec (handleAudioState false)
                         (emit (Send (session_update (realtime_modalities [text]))) s))
                    = true) by (rewrite Hdc'; exact Hdc).
    erewrite bind_Ret by reflexivity. rewrite Hopen. cbn [negb].
    rewrite dataChannel_send_open by exact Hopen.
    eexists. split; [reflexivity|]. split; [exact Ha|]. eexists.
    rewrite emit_effects, Heff, emit_effects, <- app_assoc. reflexivity.
  - rewrite dataChannel_send_open by exact Hdc.
    eexists. split; [reflexivity|]. split; [exact Haro|]. eexists.
    rewrite emit_effects. reflexivity.
Qed.

(** X9. The flag [audioResponsesOn] follows the output modality of the
    session: the agreement is established by [initSession] on a driver
    whose flag is off, and every function call handled on an open data
    channel preserves it. *)
Theorem audio_flag_follows_session_modality :
  (forall (W : World) (s : RealtimeInteraction),
      dataChannel s = true -> audioResponsesOn s = false ->
      audio_in_sync (exec (initSession W) s)) /\
  (forall (s : RealtimeInteraction) (msg : RealtimeMessage) (ui : UIElements),
      dataChannel s = true -> elements s = Some ui ->
      audio_in_sync s ->
      audio_in_sync (exec (handleFunctionCalls msg) s)).
Proof.
  split.
  - intros W s Hdc Hoff.
    destruct (@initSession_config W s Hdc) as [lang Hrun].
    unfold audio_in_sync, exec. rewrite Hrun. cbn [snd].
    rewrite emit_effects, session_modality_app.
    change (audioResponsesOn (emit ?e s)) with (audioResponsesOn s).
    rewrite Hoff. reflexivity.
  - intros s msg ui Hdc Hui Hsync. unfold audio_in_sync in *.
    unfold handleFunctionCalls.
    destruct (msg_name msg) as [name|]; [|exact Hsync].
    destruct (String.eqb name "wake_word").
    + destruct (@enableAudio_summary s ui Hdc Hui) as (Ha & response & He).
      rewrite Ha, He, !session_modality_app, Hsync.
      destruct (audioResponsesOn s); reflexivity.
    + destruct (String.eqb name "sleep_word"); [|exact Hsync].
      destruct (@disableAudio_summary s ui Hdc Hui)
        as (s' & Hrun & Ha & response & He).
      unfold exec, detached, try_catch. rewrite Hrun. cbn [snd].
      rewrite Ha, He, !session_modality_app, Hsync.
      destruct (audioResponsesOn s); reflexivity.
Qed.

Lemma audio_flag_follows_session_modality_witness :
  audio_in_sync
    (exec (handleFunctionCalls
             (mkRealtimeMessage "response.function_call_arguments.done"
                None None (Some "wake_word") None))
       (activeSession None None)).
Proof.
  refine (proj2 audio_flag_follows_session_modality _ _
            (activeUI None None) _ _ _); reflexivity.
Defined.

(** ** The dispatcher *)

Section Termination.

Lemma terminates_ret {A} (a : A) : terminates (ret a).
Proof. intros s. discriminate. Qed.

Lemma terminates_throw {A} (e : string) : terminates (@throw A e).
Proof. intros s. discriminate. Qed.

Lemma terminates_get : terminates get.
Proof. intros s. discriminate. Qed.

Lemma terminates_modify f : terminates (modify f).
Proof. intros s. discriminate. Qed.

Lemma terminates_lift {A} (o : outcome A) :
  o <> OutOfFuel -> terminates (lift o).
Proof. intros H s. exact H. Qed.

Lemma terminates_await {A} (p : promise A) : terminates (lift (await p)).
Proof. apply terminates_lift. destruct p; discriminate. Qed.

Lemma terminates_bind {A B} (m : M A) (k : A -> M B) :
  terminates m -> (forall a, terminates (k a)) -> terminates (bind m k).
Proof.
  intros Hm Hk s. unfold bind. specialize (Hm s).
  destruct (m s) as [[a|e|] s1]; cbn [fst] in *;
    [apply Hk | discriminate | contradiction].
Qed.

Lemma terminates_try_catch {A} (body : M A) (handler : string -> M A) :
  terminates body -> (forall e, terminates (handler e)) ->
  terminates (try_catch body handler).
Proof.
  intros Hb Hh s. unfold try_catch. specialize (Hb s).
  destruct (body s) as [[a|e|] s1]; cbn [fst] in *;
    [discriminate | apply Hh | contradiction].
Qed.

End Termination.

Ltac terminate :=
  repeat first
    [ apply terminates_ret | apply terminates_throw | apply terminates_get
    | apply terminates_modify | apply terminates_await
    | assumption
    | match goal with H : _ |- terminates _ => apply H end
    | apply terminates_bind; [|intros ?]
    | apply terminates_try_catch; [|intros ?]
    | match goal with
      | |- terminates (if ?b then _ else _) => destruct b
      | |- terminates (match ?x with Some _ => _ | None => _ end) => destruct x
      | |- terminates (let (_, _) := ?p in _) => destruct p
      end ].

Lemma terminates_stopSession : terminates stopSession.
Proof. unfold stopSession, release, handleSessionState, handleAudioState. terminate. Qed.

Lemma terminates_dataChannel_send ev : terminates (dataChannel_send ev).
Proof. unfold dataChannel_send. terminate. Qed.

Lemma terminates_initSession W : terminates (initSession W).
Proof.
  pose proof terminates_stopSession.
  pose proof terminates_dataChannel_send.
  unfold initSession. terminate.
Qed.

Lemma terminates_sendFileContent W fuel :
  (11 <= fuel)%nat -> terminates (sendFileContent W fuel).
Proof.
  intros Hfuel.
  pose proof terminates_stopSession.
  pose proof terminates_dataChannel_send.
  assert (Himg : forall img, terminates (lift (getSendableImage W fuel img))).
  { intros img. apply terminates_lift.
    now apply getSendableImageWithin_terminates. }
  unfold sendFileContent, sendData, sendImage. terminate.
Qed.

Lemma terminates_handleFunctionCalls msg : terminates (handleFunctionCalls msg).
Proof.
  pose proof terminates_stopSession.
  pose proof terminates_dataChannel_send.
  unfold handleFunctionCalls, detached, enableAudio, disableAudio,
    feedbackAudioDisabled, handleAudioState.
  terminate.
Qed.

Lemma terminates_drawPointedPosition cv img x y radius :
  terminates (lift (drawPointedPosition cv img x y radius)).
Proof.
  unfold drawPointedPosition. destruct x, y;
    first [apply terminates_await | apply terminates_lift; discriminate].
Qed.

Lemma terminates_sendPointedPositionIfNecessary W :
  terminates (sendPointedPositionIfNecessary W).
Proof.
  pose proof terminates_stopSession.
  pose proof terminates_dataChannel_send.
  pose proof terminates_drawPointedPosition.
  unfold sendPointedPositionIfNecessary, getCurrentPointedPosition,
    getCurrentHotspot, getLastCoords, sendImgWithPositionAndHotspot.
  terminate.
Qed.

(** X10. No exception escapes the handler of inbound events: with enough
    fuel for the recompression loop, every event, in every state and every
    environment, is handled to the end and the handler returns normally. *)
Theorem handleDataChannelMessages_returns :
  forall (W : World) (fuel : nat) (now : Z) (e : MessageEvent)
         (s : RealtimeInteraction),
    (11 <= fuel)%nat ->
    fst (handleDataChannelMessages W fuel now e s) = Ret tt.
Proof.
  intros W fuel now e s Hfuel.
  assert (Hbody : forall body : M unit,
             terminates body ->
             fst (try_catch body (fun _ => stopSession) s) = Ret tt).
  { intros body Hb. unfold try_catch. specialize (Hb s).
    destruct (body s) as [[[]|err|] s1]; cbn [fst] in *;
      [reflexivity | apply stopSession_spec | contradiction]. }
  unfold handleDataChannelMessages. apply Hbody.
  pose proof terminates_stopSession.
  pose proof terminates_dataChannel_send.
  pose proof (terminates_initSession W).
  pose proof (terminates_sendFileContent W Hfuel).
  pose proof terminates_handleFunctionCalls.
  pose proof (terminates_sendPointedPositionIfNecessary W).
  destruct e as [msg|]; [|terminate].
  unfold detached, append_delta, printResponseTime, set_modelResponse,
    startResponseTimer, handleSessionState.
  terminate.
Qed.

Lemma handleDataChannelMessages_returns_witness :
  fst (handleDataChannelMessages (demoWorld false) 11 0
         (Some (inbound "session.created")) (startedSession None None))
  = Ret tt.
Proof.
  apply handleDataChannelMessages_returns. lia.
Defined.

Lemma stopSession_under_try_catch (body : M unit) (s s1 : RealtimeInteraction) e :
  body s = (Throw e, s1) ->
  try_catch body (fun _ => stopSession) s = stopSession s1.
Proof. unfold try_catch. intros ->. reflexivity. Qed.

Lemma try_catch_stopSession (s : RealtimeInteraction) :
  try_catch stopSession (fun _ => stopSession) s = stopSession s.
Proof.
  unfold try_catch. destruct (stopSession_returns s) as [s' ->]. reflexivity.
Qed.

(** X11. Events the dispatcher ignores: an event whose type is not one of
    the nine it acts upon, and a [response.done] whose status is not
    [failed], leave the driver exactly as it was. *)
Theorem ignored_events_change_nothing :
  forall (W : World) (fuel : nat) (now : Z) (s : RealtimeInteraction)
         (msg : RealtimeMessage),
    (~ In (msg_type msg) handled_types ->
     handleDataChannelMessages W fuel now (Some msg) s = (Ret tt, s)) /\
    (msg_type msg = "response.done" ->
     msg_response_status msg <> Some "failed" ->
     handleDataChannelMessages W fuel now (Some msg) s = (Ret tt, s)).
Proof.
  intros W fuel now s msg. split.
  - intros Hnot.
    assert (Hne : forall t, In t handled_types ->
                            String.eqb (msg_type msg) t = false).
    { intros t Hin. apply String.eqb_neq. intros Heq. apply Hnot.
      now rewrite Heq. }
    unfold handleDataChannelMessages, try_catch.
    rewrite !Hne by (cbn; tauto). reflexivity.
  - intros Hty Hst.
    unfold handleDataChannelMessages, try_catch. rewrite Hty.
    cbn [String.eqb Ascii.eqb Bool.eqb].
    unfold differs. destruct (msg_response_status msg) as [st|]; [|reflexivity].
    destruct (String.eqb_spec st "failed") as [->|_]; [congruence|reflexivity].
Qed.

Lemma ignored_events_change_nothing_witness :
  let s := activeSession None None in
  handleDataChannelMessages (demoWorld true) 11 0
    (Some (inbound "response.output_text.done")) s = (Ret tt, s)
  /\ handleDataChannelMessages (demoWorld true) 11 0
       (Some (mkRealtimeMessage "response.done" None None None
                (Some "completed"))) s = (Ret tt, s).
Proof.
  intros s. split.
  - apply (proj1 (@ignored_events_change_nothing (demoWorld true) 11%nat 0 s
                    (inbound "response.output_text.done"))).
    unfold handled_types, inbound. cbn [msg_type In].
    intros [H|[H|[H|[H|[H|[H|[H|[H|[H|[]]]]]]]]]]; discriminate.
  - apply (proj2 (@ignored_events_change_nothing (demoWorld true) 11%nat 0 s
                    (mkRealtimeMessage "response.done" None None None
                       (Some "completed"))));
      [reflexivity | discriminate].
Defined.

(** X12. Events that end the session: data that is not JSON, an event of
    type [invalid_request_error], and a [response.done] whose status is
    [failed] are each answered by [stopSession] and nothing else. *)
Theorem fatal_events_stop_session :
  forall (W : World) (fuel : nat) (now : Z) (s : RealtimeInteraction),
    handleDataChannelMessages W fuel now None s = stopSession s /\
    (forall msg,
        msg_type msg = "invalid_request_error" ->
        handleDataChannelMessages W fuel now (Some msg) s = stopSession s) /\
    (forall msg,
        msg_type msg = "response.done" ->
        msg_response_status msg = Some "failed" ->
        handleDataChannelMessages W fuel now (Some msg) s = stopSession s).
Proof.
  intros W fuel now s. split; [|split].
  - unfold handleDataChannelMessages.
    now apply (@stopSession_under_try_catch _ s s "SyntaxError").
  - intros msg Hty. unfold handleDataChannelMessages. rewrite Hty.
    cbn [String.eqb Ascii.eqb Bool.eqb]. apply try_catch_stopSession.
  - intros msg Hty Hst. unfold handleDataChannelMessages. rewrite Hty, Hst.
    cbn [String.eqb Ascii.eqb Bool.eqb differs negb].
    apply try_catch_stopSession.
Qed.

Lemma fatal_events_stop_session_witness :
  let s := activeSession None None in
  handleDataChannelMessages (demoWorld true) 11 0
    (Some (mkRealtimeMessage "response.done" None None None (Some "failed"))) s
  = stopSession s.
Proof.
  intros s.
  apply (proj2 (proj2 (@fatal_events_stop_session (demoWorld true) 11%nat 0 s)));
    reflexivity.
Defined.

(** ** Transcript of the response *)

Lemma append_empty_r (a : string) : a ++ "" = a.
Proof. induction a as [|c a IH]; cbn; [reflexivity | now rewrite IH]. Qed.

Lemma append_assoc (a b c : string) : (a ++ b) ++ c = a ++ (b ++ c).
Proof. induction a as [|x a IH]; cbn; [reflexivity | now rewrite IH]. Qed.

Lemma delta_step (W : World) (fuel : nat) (now : Z) (e : MessageEvent)
    (s : RealtimeInteraction) (ui : UIElements) :
  is_delta e ->
  elements s = Some ui ->
  let s1 := exec (handleDataChannelMessages W fuel now e) s in
  exists ui1,
    elements s1 = Some ui1 /\
    modelResponse ui1 = modelResponse ui ++ delta_text e /\
    effects s1 = effects s /\
    lastCoords s1 = lastCoords s /\
    dataChannel s1 = dataChannel s /\
    requestStartTime s1 = requestStartTime s /\
    (requestStartTime s <> None -> responseStarted s1 = true).
Proof.
  intros (type & delta & -> & Hty) Hui.
  destruct s as [pc ae ls dc ek el aro rst rs gs lc dims eff].
  cbn in Hui. subst el.
  assert (Hnil : modelResponse ui = modelResponse ui ++ "")
    by (symmetry; apply append_empty_r).
  destruct Hty as [-> | ->];
    destruct delta as [[|c d]|], rs, rst as [t|];
    eexists; (split; [vm_compute; reflexivity|]);
    (split; [first [exact Hnil | reflexivity]|]);
    repeat split; try reflexivity; intros H; try reflexivity;
    exfalso; apply H; reflexivity.
Qed.

Lemma deltas_append (W : World) (fuel : nat) (now : Z)
    (events : list MessageEvent) :
  forall (s : RealtimeInteraction) (ui : UIElements),
    Forall is_delta events ->
    elements s = Some ui ->
    let s' := handleAll W fuel now events s in
    shown s' = Some (modelResponse ui ++ joined events) /\
    effects s' = effects s /\
    lastCoords s' = lastCoords s /\
    (requestStartTime s <> None -> events <> [] -> responseStarted s' = true).
Proof.
  induction events as [|e events IH]; intros s ui Hall Hui.
  - cbn. unfold shown. rewrite Hui, append_empty_r.
    repeat split. intros _ H. now contradiction H.
  - inversion Hall as [|? ? He Hrest]; subst.
    destruct (@delta_step W fuel now e s ui He Hui)
      as (ui1 & Hui1 & Hresp & Heff & Hlc & _ & Hrst & Hstarted).
    cbn [handleAll fold_left].
    specialize (IH _ ui1 Hrest Hui1).
    cbn zeta in IH. unfold handleAll in IH.
    destruct IH as (Hshown & Heff' & Hlc' & Hstarted').
    split; [|split; [|split]].
    + rewrite Hshown, Hresp. cbn [joined fold_right].
      now rewrite append_assoc.
    + now rewrite Heff'.
    + now rewrite Hlc'.
    + intros Hrun _.
      destruct events as [|e' events'].
      * cbn [fold_left]. now apply Hstarted.
      * apply Hstarted'; [now rewrite Hrst | discriminate].
Qed.

Lemma content_part_added_clears (W : World) (fuel : nat) (now : Z)
    (msg : RealtimeMessage) (s : RealtimeInteraction) (ui : UIElements) :
  msg_type msg = "response.content_part.added" ->
  elements s = Some ui ->
  let s1 := exec (handleDataChannelMessages W fuel now (Some msg)) s in
  exists ui1,
    elements s1 = Some ui1 /\ modelResponse ui1 = "" /\
    effects s1 = effects s /\ lastCoords s1 = lastCoords s.
Proof.
  intros Hty Hui. unfold exec, handleDataChannelMessages, try_catch.
  rewrite Hty. cbn [String.eqb Ascii.eqb Bool.eqb].
  unfold set_modelResponse. munfold. rewrite Hui. cbn.
  eexists. repeat split.
Qed.

(** X13. Text and transcript deltas build the transcript: after a sequence
    of such events the response widget shows what it showed before followed
    by the texts of the deltas in order of arrival (a delta without text
    adds nothing), and after [response.content_part.added] followed by the
    deltas it shows exactly their texts.  Nothing is sent, [lastCoords] is
    untouched, and once the timer of the turn is running the first delta
    marks the response as started. *)
Theorem deltas_build_transcript :
  forall (W : World) (fuel : nat) (now : Z) (events : list MessageEvent)
         (s : RealtimeInteraction) (ui : UIElements),
    Forall is_delta events ->
    elements s = Some ui ->
    let s' := handleAll W fuel now events s in
    shown s' = Some (modelResponse ui ++ joined events) /\
    effects s' = effects s /\
    lastCoords s' = lastCoords s /\
    (requestStartTime s <> None -> events <> [] -> responseStarted s' = true) /\
    (forall msg,
        msg_type msg = "response.content_part.added" ->
        shown (handleAll W fuel now (Some msg :: events) s)
        = Some (joined events)).
Proof.
  intros W fuel now events s ui Hall Hui s'.
  destruct (@deltas_append W fuel now events s ui Hall Hui)
    as (H1 & H2 & H3 & H4).
  repeat split; try assumption.
  intros msg Hty.
  destruct (@content_part_added_clears W fuel now msg s ui Hty Hui)
    as (ui1 & Hui1 & Hempty & _).
  cbn [handleAll fold_left].
  destruct (@deltas_append W fuel now events _ ui1 Hall Hui1) as (Hs & _).
  unfold handleAll in Hs. rewrite Hs, Hempty. reflexivity.
Qed.

Lemma deltas_build_transcript_witness :
  shown (handleAll (demoWorld true) 11 0
           [delta_event "response.output_text.delta" (Some "Hel");
            delta_event "response.output_audio_transcript.delta" None;
            delta_event "response.output_text.delta" (Some "lo")]
           (activeSession None None))
  = Some ("The model response will appear here..." ++ "Hel" ++ "" ++ "lo" ++ "").
Proof.
  refine (proj1 (@deltas_build_transcript (demoWorld true) 11%nat 0 _
                   (activeSession None None) (activeUI None None) _ _)).
  - repeat constructor; eexists _, _; (split; [reflexivity|]); auto.
  - reflexivity.
Defined.

(** ** More on the change detector and the position message *)

Lemma detector_same_position (x y : option Z) (threshold : Z) :
  0 < threshold ->
  checkPointedPositionVariation x y x y threshold = false.
Proof.
  intros Ht. unfold checkPointedPositionVariation.
  destruct x as [x|], y as [y|]; cbn; try reflexivity.
  rewrite !Z.sub_diag. cbn.
  destruct (Z.leb_spec threshold 0); [lia | reflexivity].
Qed.

(** X14. The detector does not depend on which snapshot is called current
    and which last; with a positive threshold a snapshot never differs
    from itself; and with a threshold of zero or less any two pointing
    positions count as a change. *)
Theorem detector_symmetric :
  forall (ax ay bx by_ : option Z) (threshold : Z),
    checkPointedPositionVariation ax ay bx by_ threshold
    = checkPointedPositionVariation bx by_ ax ay threshold
    /\ (0 < threshold ->
        checkPointedPositionVariation ax ay ax ay threshold = false)
    /\ (threshold <= 0 ->
        absent ax ay = false -> absent bx by_ = false ->
        checkPointedPositionVariation ax ay bx by_ threshold = true).
Proof.
  intros ax ay bx by_ threshold. split; [|split].
  - unfold checkPointedPositionVariation.
    destruct ax as [ax|], ay as [ay|], bx as [bx|], by_ as [by_|];
      cbn; try reflexivity.
    replace (bx - ax) with (- (ax - bx)) by lia.
    replace (by_ - ay) with (- (ay - by_)) by lia.
    rewrite !Z.abs_opp. reflexivity.
  - apply detector_same_position.
  - intros Ht Ha Hb. unfold absent in *.
    destruct ax as [ax|], ay as [ay|]; try discriminate.
    destruct bx as [bx|], by_ as [by_|]; try discriminate.
    apply present_threshold_iff. left. lia.
Qed.

Lemma detector_symmetric_witness :
  checkPointedPositionVariation (Some 3) None (Some 3) None default_threshold
  = false
  /\ checkPointedPositionVariation (Some 1) (Some 1) (Some 1) (Some 1) 0 = true.
Proof.
  split.
  - apply (proj1 (proj2 (detector_symmetric (Some 3) None (Some 3) None
                           default_threshold))).
    reflexivity.
  - apply (proj2 (proj2 (detector_symmetric (Some 1) (Some 1) (Some 1) (Some 1) 0)));
      [discriminate | reflexivity | reflexivity].
Defined.

Lemma position_unchanged_run (W : World) (s : RealtimeInteraction)
    (ui : UIElements) :
  elements s = Some ui ->
  checkPointedPositionVariation (xCoord ui) (yCoord ui)
    (lastX (lastCoords s)) (lastY (lastCoords s)) default_threshold = false ->
  sendPointedPositionIfNecessary W s = (Ret tt, s).
Proof.
  intros Hui Hsame. unfold sendPointedPositionIfNecessary, try_catch.
  erewrite bind_Ret by (apply getCurrentPointedPosition_some; exact Hui).
  cbv beta iota.
  erewrite bind_Ret by (apply getCurrentHotspot_some; exact Hui).
  erewrite bind_Ret by apply getLastCoords_eq.
  cbv beta iota. rewrite Hsame. reflexivity.
Qed.

Lemma position_changed_run (W : World) (s : RealtimeInteraction)
    (ui : UIElements) :
  elements s = Some ui ->
  checkPointedPositionVariation (xCoord ui) (yCoord ui)
    (lastX (lastCoords s)) (lastY (lastCoords s)) default_threshold = true ->
  sendPointedPositionIfNecessary W s
  = try_catch
      (sendImgWithPositionAndHotspot W (xCoord ui) (yCoord ui)
         (if String.eqb (hotspotSelect ui) "null" then None
          else Some (hotspotSelect ui)))
      (fun _ => stopSession)
      (set_lastCoords (mkCoords (xCoord ui) (yCoord ui)) s).
Proof.
  intros Hui Hch. unfold sendPointedPositionIfNecessary, try_catch.
  erewrite bind_Ret by (apply getCurrentPointedPosition_some; exact Hui).
  cbv beta iota.
  erewrite bind_Ret by (apply getCurrentHotspot_some; exact Hui).
  erewrite bind_Ret by apply getLastCoords_eq.
  cbv beta iota. rewrite Hch.
  erewrite bind_Ret by reflexivity. reflexivity.
Qed.

Lemma stopSession_keeps_inputs (s : RealtimeInteraction) (ui : UIElements) :
  elements s = Some ui ->
  exists ui',
    elements (exec stopSession s) = Some ui' /\
    xCoord ui' = xCoord ui /\ yCoord ui' = yCoord ui /\
    hotspotSelect ui' = hotspotSelect ui.
Proof.
  intros Hui.
  destruct s as [pc ae ls dc ek el aro rst rs gs lc dims eff].
  cbn in Hui. subst el.
  destruct pc, ae, ls, dc; eexists; (split; [vm_compute; reflexivity|]);
    repeat split.
Qed.

(** X15. The position check settles: whatever the first check did (nothing,
    a message, or a teardown), a second check right after it, with the
    inputs unchanged, does nothing at all. *)
Theorem position_check_settles :
  forall (W : World) (s : RealtimeInteraction) (ui : UIElements),
    elements s = Some ui ->
    let s1 := exec (sendPointedPositionIfNecessary W) s in
    sendPointedPositionIfNecessary W s1 = (Ret tt, s1).
Proof.
  intros W s ui Hui s1. subst s1. unfold exec.
  destruct (checkPointedPositionVariation (xCoord ui) (yCoord ui)
              (lastX (lastCoords s)) (lastY (lastCoords s)) default_threshold)
    eqn:Hch.
  - rewrite (position_changed_run W s Hui Hch). unfold try_catch.
    set (s0 := set_lastCoords (mkCoords (xCoord ui) (yCoord ui)) s).
    set (hs := if String.eqb (hotspotSelect ui) "null" then None
               else Some (hotspotSelect ui)).
    destruct (sendImgWithPositionAndHotspot_state W (xCoord ui) (yCoord ui)
                hs s0) as [_ [[Hs [e He]]|[c [Hs He]]]];
      destruct (sendImgWithPositionAndHotspot W (xCoord ui) (yCoord ui) hs s0)
        as [o s1]; cbn [fst snd] in Hs, He; subst o s1.
    + destruct (@stopSession_keeps_inputs s0 ui Hui)
        as (ui' & Hui' & Hx & Hy & _).
      destruct (stopSession_spec s0) as (_ & _ & _ & _ & _ & _ & Hlc & _).
      unfold exec in *.
      apply (position_unchanged_run W _ Hui').
      rewrite Hx, Hy, Hlc. apply detector_same_position. reflexivity.
    + cbn [snd].
      apply (@position_unchanged_run W _ ui); [exact Hui|].
      apply detector_same_position. reflexivity.
  - rewrite (position_unchanged_run W s Hui Hch). cbn [snd].
    apply (position_unchanged_run W s Hui Hch).
Qed.

Lemma position_check_settles_witness :
  let s1 := exec (sendPointedPositionIfNecessary (demoWorld true))
              (activeSession (Some 50) (Some 50)) in
  sendPointedPositionIfNecessary (demoWorld true) s1 = (Ret tt, s1).
Proof.
  apply (@position_check_settles (demoWorld true)
           (activeSession (Some 50) (Some 50)) (activeUI (Some 50) (Some 50))).
  reflexivity.
Defined.

(** X16. A changed pointing position on a bootstrapped session: when the
    marker can be drawn, exactly one conversation item goes out, made of
    the introductory text, the grayscale template with the marker at the
    pointed position (radius 9), and the hotspot line; [lastCoords] holds
    the new position.  The hotspot line is empty exactly when the selection
    is ["null"] or empty.  When the marker cannot be drawn, nothing goes
    out and the session is torn down. *)
Theorem pointing_message_shape :
  forall (W : World) (s : RealtimeInteraction) (ui : UIElements)
         (x y : Z) (gray : string),
    elements s = Some ui ->
    xCoord ui = Some x -> yCoord ui = Some y ->
    grayScaleBase64Template s = Some gray -> gray <> "" ->
    dataChannel s = true ->
    checkPointedPositionVariation (Some x) (Some y)
      (lastX (lastCoords s)) (lastY (lastCoords s)) default_threshold = true ->
    let moved := set_lastCoords (mkCoords (Some x) (Some y)) s in
    let hotspot := if String.eqb (hotspotSelect ui) "null" then None
                   else Some (hotspotSelect ui) in
    (forall img,
        fillMarker (canvas W) gray x y 9 = Resolved img ->
        sendPointedPositionIfNecessary W s
        = (Ret tt,
           emit (Send (conversation_item_create
                         [input_text pointing_text; input_image img;
                          input_text (hotspot_text hotspot)])) moved)) /\
    (forall e,
        fillMarker (canvas W) gray x y 9 = Rejected e ->
        sendPointedPositionIfNecessary W s = stopSession moved) /\
    (hotspot_text hotspot = ""
     <-> hotspotSelect ui = "null" \/ hotspotSelect ui = "").
Proof.
  intros W s ui x y gray Hui Hx Hy Hgray Hne Hdc Hch moved hotspot.
  assert (Htruthy : truthy (Some gray) = true).
  { cbn. apply negb_true_iff. now apply String.eqb_neq. }
  assert (Hrun : sendPointedPositionIfNecessary W s
                 = try_catch
                     (sendImgWithPositionAndHotspot W (Some x) (Some y) hotspot)
                     (fun _ => stopSession) moved).
  { assert (Hch' : checkPointedPositionVariation (xCoord ui) (yCoord ui)
                     (lastX (lastCoords s)) (lastY (lastCoords s))
                     default_threshold = true)
      by (rewrite Hx, Hy; exact Hch).
    pose proof (position_changed_run W s Hui Hch') as Hrun0.
    rewrite Hx, Hy in Hrun0. exact Hrun0. }
  assert (Hbody : sendImgWithPositionAndHotspot W (Some x) (Some y) hotspot moved
                  = match fillMarker (canvas W) gray x y 9 with
                    | Resolved img =>
                        (Ret tt,
                         emit (Send (conversation_item_create
                                       [input_text pointing_text; input_image img;
                                        input_text (hotspot_text hotspot)])) moved)
                    | Rejected e => (Throw e, moved)
                    end).
  { unfold sendImgWithPositionAndHotspot.
    erewrite bind_Ret by reflexivity.
    change (grayScaleBase64Template moved) with (grayScaleBase64Template s).
    change (dataChannel moved) with (dataChannel s).
    rewrite Hgray, Htruthy, Hdc. cbn [negb isNull orb str].
    unfold drawPointedPosition, default_radius.
    unfold bind at 1. rewrite bind_lift.
    destruct (fillMarker (canvas W) gray x y 9) as [img|e]; cbn [await].
    - unfold ret. apply dataChannel_send_open. exact Hdc.
    - reflexivity. }
  split; [|split].
  - intros img Himg. rewrite Hrun. unfold try_catch.
    rewrite Hbody, Himg. reflexivity.
  - intros e He. rewrite Hrun. unfold try_catch.
    rewrite Hbody, He. reflexivity.
  - subst hotspot. unfold hotspot_text.
    destruct (String.eqb_spec (hotspotSelect ui) "null") as [Hn|Hn].
    + cbn. tauto.
    + cbn [truthy str negb].
      destruct (String.eqb_spec (hotspotSelect ui) "") as [He|He]; cbn [negb].
      * tauto.
      * split; [discriminate | intros [H|H]; contradiction].
Qed.

Lemma pointing_message_shape_witness :
  let s := activeSession (Some 50) (Some 50) in
  sendPointedPositionIfNecessary (demoWorld true) s
  = (Ret tt,
     emit (Send (conversation_item_create
                   [input_text pointing_text;
                    input_image "marked:gray:data:image/webp;base64,template.png";
                    input_text ""]))
       (set_lastCoords (mkCoords (Some 50) (Some 50)) s)).
Proof.
  intros s.
  refine (proj1 (@pointing_message_shape (demoWorld true) s
                   (activeUI (Some 50) (Some 50)) 50 50
                   "gray:data:image/webp;base64,template.png"
                   _ _ _ _ _ _ _) _ _);
    try reflexivity.
  discriminate.
Defined.

(** ** The coordinate inputs *)

(** X17. [enforceInputMinMax] leaves an empty input alone, is idempotent,
    and with bounds [min <= max] brings every number into the interval,
    keeping a number that already lies in it.  A coordinate so clamped to
    an image smaller than 99996 pixels always differs from the placeholder
    of [lastCoords], so the first detection cycle of a pointing user is a
    change. *)
Theorem enforceInputMinMax_clamps :
  forall (max min value : option Z),
    PositionView.enforceInputMinMax max min None = None /\
    PositionView.enforceInputMinMax max min
      (PositionView.enforceInputMinMax max min value)
    = PositionView.enforceInputMinMax max min value /\
    (forall lo hi v,
        max = Some hi -> min = Some lo -> value = Some v -> lo <= hi ->
        exists r,
          PositionView.enforceInputMinMax max min value = Some r /\
          lo <= r <= hi /\ (lo <= v <= hi -> r = v) /\
          (hi <= placeholder - default_threshold ->
           forall y,
             checkPointedPositionVariation (Some r) y
               (Some placeholder) (Some placeholder) default_threshold = true)).
Proof.
  intros max min value. unfold PositionView.enforceInputMinMax.
  split; [reflexivity|]. split.
  - destruct value as [v|]; [|reflexivity].
    destruct max as [hi|], min as [lo|]; cbv zeta.
    + destruct (Z.ltb_spec hi v).
      * destruct (Z.ltb_spec hi lo).
        -- destruct (Z.ltb_spec hi lo); try lia.
           destruct (Z.ltb_spec hi lo); try lia. reflexivity.
        -- destruct (Z.ltb_spec hi hi); try lia.
           destruct (Z.ltb_spec hi lo); try lia. reflexivity.
      * destruct (Z.ltb_spec v lo).
        -- destruct (Z.ltb_spec hi lo).
           ++ destruct (Z.ltb_spec hi lo); try lia. reflexivity.
           ++ destruct (Z.ltb_spec lo lo); try lia. reflexivity.
        -- destruct (Z.ltb_spec hi v); try lia.
           destruct (Z.ltb_spec v lo); try lia. reflexivity.
    + destruct (Z.ltb_spec hi v).
      * destruct (Z.ltb_spec hi hi); try lia; reflexivity.
      * destruct (Z.ltb_spec hi v); try lia; reflexivity.
    + destruct (Z.ltb_spec v lo).
      * destruct (Z.ltb_spec lo lo); try lia; reflexivity.
      * destruct (Z.ltb_spec v lo); try lia; reflexivity.
    + reflexivity.
  - intros lo hi v -> -> -> Hle.
    eexists. split; [reflexivity|].
    destruct (Z.ltb_spec hi v), (Z.ltb_spec hi lo), (Z.ltb_spec v lo);
      (split; [lia|]); (split; [lia|]); intros Hhi y;
      (destruct y as [y|];
       [apply present_threshold_iff; left; unfold placeholder, default_threshold in *; lia
       | reflexivity]).
Qed.

Lemma enforceInputMinMax_clamps_witness :
  exists r,
    PositionView.enforceInputMinMax (Some 600) (Some 0) (Some 100000) = Some r /\
    0 <= r <= 600.
Proof.
  destruct (enforceInputMinMax_clamps (Some 600) (Some 0) (Some 100000))
    as (_ & _ & H).
  destruct (H 0 600 100000 eq_refl eq_refl eq_refl ltac:(lia))
    as (r & Hr & Hb & _).
  exists r. split; [exact Hr | exact Hb].
Defined.

(** ** Grayscale conversion *)

Example gray_of_pure_red : GrayScale.gray 255 0 0 = 54.
Proof. vm_compute. reflexivity. Qed.

Lemma gray_is_byte (r g b : Z) : 0 <= GrayScale.gray r g b <= 255.
Proof.
  unfold GrayScale.gray, GrayScale.toUint8Clamp.
  destruct (GrayScale.Math_round _) as [n| |[|]]; lia.
Qed.

Lemma gray_levels_table :
  forallb (fun n => GrayScale.gray (Z.of_nat n) (Z.of_nat n) (Z.of_nat n)
                    =? Z.of_nat n)
    (seq 0 256) = true.
Proof. vm_compute. reflexivity. Qed.

Lemma gray_of_gray (v : Z) : 0 <= v <= 255 -> GrayScale.gray v v v = v.
Proof.
  intros Hv.
  pose proof (proj1 (forallb_forall _ _) gray_levels_table (Z.to_nat v)) as H.
  cbv beta in H. rewrite Z2Nat.id in H by lia.
  apply Z.eqb_eq, H, in_seq. lia.
Qed.

Lemma grayScaleLoop_by_length (n : nat) :
  forall data, (List.length data <= n)%nat ->
    List.length (GrayScale.grayScaleLoop data) = List.length data /\
    GrayScale.grayScaleLoop (GrayScale.grayScaleLoop data)
    = GrayScale.grayScaleLoop data.
Proof.
  induction n as [|n IH]; intros data Hlen.
  - destruct data; [split; reflexivity | cbn in Hlen; lia].
  - destruct data as [|r [|g [|b [|a rest]]]]; try (split; reflexivity).
    + cbn [GrayScale.grayScaleLoop List.length]. split; [reflexivity|].
      rewrite gray_of_gray by apply gray_is_byte. reflexivity.
    + cbn [List.length] in Hlen.
      destruct (IH rest ltac:(lia)) as [Hl Hi].
      cbn [GrayScale.grayScaleLoop List.length]. split; [now rewrite Hl|].
      rewrite Hi, gray_of_gray by apply gray_is_byte.
      destruct (GrayScale.grayScaleLoop rest); reflexivity.
Qed.

Lemma grayScaleLoop_pixels (pixels : list (Z * Z * Z * Z)) :
  GrayScale.grayScaleLoop (bytes_of_pixels pixels)
  = bytes_of_pixels (List.map grayed pixels).
Proof.
  induction pixels as [|[[[r g] b] a] rest IH]; [reflexivity|].
  cbn [bytes_of_pixels List.map grayed GrayScale.grayScaleLoop].
  rewrite IH.
  destruct (bytes_of_pixels rest) as [|x l] eqn:Hrest; [|reflexivity].
  destruct rest as [|[[[r' g'] b'] a'] rest']; [reflexivity | discriminate].
Qed.

(** X18. The pixel loop of [base64ToGrayScale] turns every pixel
    [(r, g, b, a)] of an image into [(y, y, y, a)], where [y] is the byte
    [gray r g b], so that the result is an image of gray pixels with the
    alpha bytes of the input.  An image that already consists of gray
    pixels is left as it is; on any array of bytes the loop keeps the
    length and is idempotent.  Pure red, green, blue, white and black give
    54, 182, 18, 255 and 0. *)
Theorem grayScaleLoop_converts_pixels :
  forall pixels : list (Z * Z * Z * Z),
    GrayScale.grayScaleLoop (bytes_of_pixels pixels)
    = bytes_of_pixels (List.map grayed pixels) /\
    Forall gray_pixel (List.map grayed pixels) /\
    (Forall gray_pixel pixels ->
     GrayScale.grayScaleLoop (bytes_of_pixels pixels) = bytes_of_pixels pixels) /\
    (forall data : list Z,
        List.length (GrayScale.grayScaleLoop data) = List.length data /\
        GrayScale.grayScaleLoop (GrayScale.grayScaleLoop data)
        = GrayScale.grayScaleLoop data) /\
    GrayScale.gray 255 0 0 = 54 /\ GrayScale.gray 0 255 0 = 182 /\
    GrayScale.gray 0 0 255 = 18 /\ GrayScale.gray 255 255 255 = 255 /\
    GrayScale.gray 0 0 0 = 0.
Proof.
  intros pixels.
  split; [apply grayScaleLoop_pixels|].
  split.
  { apply Forall_forall. intros p Hin.
    apply in_map_iff in Hin. destruct Hin as ([[[r g] b] a] & <- & _).
    cbn. repeat split; apply gray_is_byte. }
  split.
  { intros Hgray. rewrite grayScaleLoop_pixels. f_equal.
    induction Hgray as [|[[[r g] b] a] rest (Hrg & Hgb & Hr) _ IH];
      [reflexivity|].
    cbn [List.map grayed]. subst g b.
    rewrite gray_of_gray by exact Hr. now rewrite IH. }
  split.
  { intros data. apply (@grayScaleLoop_by_length (List.length data)).
    apply le_n. }
  repeat split; vm_compute; reflexivity.
Qed.

Lemma grayScaleLoop_converts_pixels_witness :
  GrayScale.grayScaleLoop [54; 54; 54; 200; 0; 0; 0; 255]
  = [54; 54; 54; 200; 0; 0; 0; 255].
Proof.
  refine (proj1 (proj2 (proj2 (grayScaleLoop_converts_pixels
                                 [(54, 54, 54, 200); (0, 0, 0, 255)]))) _).
  repeat constructor; lia.
Defined.

(** ** The ephemeral key *)

(** X19. [getEphemeralKey] gives a key only when the request succeeded with
    an OK status and a non-empty [value], and then gives that value; every
    other course gives [null], never the empty string.  On [null],
    [startSession] records it and stops before acquiring anything. *)
Theorem ephemeral_key_absent_or_non_empty :
  forall (env : option string)
         (fetch : string -> promise EphemeralKey.Response),
    (forall k,
        EphemeralKey.getEphemeralKey env fetch = Some k ->
        k <> "" /\
        exists res,
          fetch (EphemeralKey.authorization (EphemeralKey.getEnvApiKey env))
          = Resolved res /\
          EphemeralKey.ok res = true /\
          EphemeralKey.json_value res = Resolved (Some k)) /\
    truthy (EphemeralKey.getEphemeralKey env fetch)
    = negb (isNull (EphemeralKey.getEphemeralKey env fetch)) /\
    (forall (W : World) (s : RealtimeInteraction),
        Driver.getEphemeralKey W = EphemeralKey.getEphemeralKey env fetch ->
        EphemeralKey.getEphemeralKey env fetch = None ->
        startSession W s = (Ret tt, set_ephemeralKey None s)).
Proof.
  intros env fetch.
  assert (Hkey : forall k,
             EphemeralKey.getEphemeralKey env fetch = Some k ->
             k <> "" /\
             exists res,
               fetch (EphemeralKey.authorization (EphemeralKey.getEnvApiKey env))
               = Resolved res /\
               EphemeralKey.ok res = true /\
               EphemeralKey.json_value res = Resolved (Some k)).
  { intros k. unfold EphemeralKey.getEphemeralKey, EphemeralKey.request.
    destruct (fetch _) as [res|e]; cbn [await obind]; [|discriminate].
    destruct (EphemeralKey.ok res) eqn:Hok; cbn [negb]; [|discriminate].
    destruct (EphemeralKey.json_value res) as [[v|]|e] eqn:Hv;
      cbn [await obind truthy negb]; try discriminate.
    destruct (String.eqb_spec v "") as [->|Hne]; cbn [negb]; [discriminate|].
    intros [= <-]. split; [exact Hne|]. exists res. auto. }
  split; [exact Hkey|]. split.
  - destruct (EphemeralKey.getEphemeralKey env fetch) as [k|] eqn:Hk;
      [|reflexivity].
    destruct (Hkey k eq_refl) as [Hne _]. cbn.
    apply negb_true_iff, String.eqb_neq. exact Hne.
  - intros W s HW Hnone. unfold startSession.
    erewrite bind_Ret by reflexivity.
    erewrite bind_Ret by reflexivity.
    change (ephemeralKey (set_ephemeralKey ?k s)) with k.
    rewrite HW, Hnone. reflexivity.
Qed.

Lemma ephemeral_key_absent_or_non_empty_witness :
  let fetch := fun _ : string =>
                 Resolved (EphemeralKey.mkResponse true "200"
                             (Resolved (Some "ek_demo"))) in
  EphemeralKey.getEphemeralKey (Some "sk") fetch = Some "ek_demo"
  /\ "ek_demo" <> "".
Proof.
  intros fetch. split; [reflexivity|].
  exact (proj1 (proj1 (@ephemeral_key_absent_or_non_empty (Some "sk") fetch)
                  "ek_demo" eq_refl)).
Defined.
